(** * RandomCopyPaste: the 3D copy-paste augmentation layer

    A shallow embedding of
    [keras_cv/layers/preprocessing_3d/waymo/random_copy_paste.py].

    Conventions.
    - A float32 tensor entry is a rational ([Q]).  The layer moves the
      entries of its inputs and compares them with constants, which is exact;
      the one place where it computes with them is the sum of the IoU values
      of a candidate, and that sum is rounded to float32 ([float32]).
    - A dense tensor of rank [r] is a nested list, [tensor r]; a tensor whose
      rank is only known at run time is a dependent pair, [Tensor].
    - The random generator is made explicit: a [Draw] carries the value
      returned by [random.uniform] and the permutation applied by
      [tf.random.shuffle].
    - Operations of the tensor library are total functions on nested lists.
      Where the library would reject its operands (rows of unequal length, an
      index past the end) the value returned here is documented at the
      definition, and every theorem lists the shape hypotheses it needs.
    - Python exceptions are an explicit [result].  [ValueError], [TypeError]
      and [KeyError] are the outcomes whose class is known: what the layer
      raises itself, what Python raises on [None] and on a missing key, and
      what the tensor library raises when it is handed [None].
      [TensorLibraryError] stands for an exception raised inside the tensor
      library whose class is left open: it depends on the execution mode and
      may well be a [ValueError].  No statement below infers the absence of
      a [ValueError] from it. *)

From Stdlib Require Import String.
From Stdlib Require Import List ZArith QArith Qminmax Lqa Bool Lia Arith PeanoNat.
From Stdlib Require Import Qround Qabs Qpower.
From Stdlib Require Import Permutation.
Import ListNotations.
Local Open Scope Q_scope.

(** ** Exceptions *)

Inductive exn : Type :=
| ValueError (msg : string)
| TypeError
| KeyError
| TensorLibraryError.

Inductive result (A : Type) : Type :=
| Ok (a : A)
| Raise (e : exn).

Arguments Ok {A} a.
Arguments Raise {A} e.

(** The outcome is a [ValueError], with some message. *)
Definition raises_ValueError {A : Type} (r : result A) : Prop :=
  exists msg, r = Raise (ValueError msg).

Definition bind {A B : Type} (r : result A) (k : A -> result B) : result B :=
  match r with
  | Ok a => k a
  | Raise e => Raise e
  end.

Notation "x <- c ;; k" := (bind c (fun x => k))
  (at level 61, c at next level, right associativity).

(** ** The layer object *)

(** [label_index] is [None] or a Python int; the two counts are Python ints. *)
Record RandomCopyPaste : Type := {
  _label_index : option Z;
  _min_paste_bounding_boxes : Z;
  _max_paste_bounding_boxes : Z
}.

(** Python truth value of [label_index]: [None] and [0] are falsy. *)
Definition truthy (label_index : option Z) : bool :=
  match label_index with
  | None => false
  | Some z => negb (z =? 0)%Z
  end.

(** [label_index < 0], evaluated only when [label_index] is truthy. *)
Definition label_negative (label_index : option Z) : bool :=
  match label_index with
  | None => false
  | Some z => (z <? 0)%Z
  end.

Definition __init__ (label_index : option Z)
    (min_paste_bounding_boxes max_paste_bounding_boxes : Z)
    : result RandomCopyPaste :=
  if truthy label_index && label_negative label_index then
    Raise (ValueError "label_index must be >=0.")
  else if (min_paste_bounding_boxes <? 0)%Z then
    Raise (ValueError "min_paste_bounding_boxes must be >=0.")
  else if (max_paste_bounding_boxes <? 0)%Z then
    Raise (ValueError "max_paste_bounding_boxes must be >=0.")
  else if (max_paste_bounding_boxes <? min_paste_bounding_boxes)%Z then
    Raise (ValueError
             "max_paste_bounding_boxes must be >= min_paste_bounding_boxes.")
  else
    Ok {| _label_index := label_index;
          _min_paste_bounding_boxes := min_paste_bounding_boxes;
          _max_paste_bounding_boxes := max_paste_bounding_boxes |}.

(** The configuration dictionary, in the order of its keys. *)
Definition get_config (self : RandomCopyPaste) : option Z * Z * Z :=
  (_label_index self,
   _min_paste_bounding_boxes self,
   _max_paste_bounding_boxes self).

(** ** Tensors *)

Fixpoint tensor (r : nat) : Type :=
  match r with
  | O => Q
  | S r' => list (tensor r')
  end.

(** A tensor together with its rank, as stored in the inputs dictionary. *)
Definition Tensor : Type := {r : nat & tensor r}.

Definition rank (t : Tensor) : nat := projT1 t.

Definition as_rank3 (t : Tensor) : option (tensor 3) :=
  match t with
  | existT _ 3%nat x => Some x
  | _ => None
  end.

Definition as_rank4 (t : Tensor) : option (tensor 4) :=
  match t with
  | existT _ 4%nat x => Some x
  | _ => None
  end.

Definition as_rank5 (t : Tensor) : option (tensor 5) :=
  match t with
  | existT _ 5%nat x => Some x
  | _ => None
  end.

(** [t.get_shape().as_list()] of a rank-3 tensor.  A nested list does not
    record the inner dimensions of a tensor with an empty outer one; they
    read as [0]. *)
Definition get_shape (t : tensor 3) : nat * nat * nat :=
  (length t, length (hd [] t), length (hd [] (hd [] t))).

(** [tf.shape(t)[1]]. *)
Definition dim1 {A : Type} (t : list (list A)) : nat := length (hd [] t).

(** [row[k]]; a row too short reads [0]. *)
Definition feature (k : nat) (row : tensor 1) : Q := nth k row 0.

(** [tf.math.greater]. *)
Definition greater (x y : Q) : bool := negb (Qle_bool x y).

(** [tf.boolean_mask] along the leading axis: the entries whose mask bit is
    set, in order.  The library requires both lengths equal; here the longer
    one is cut. *)
Definition boolean_mask {A : Type} (l : list A) (mask : list bool) : list A :=
  map fst (filter snd (combine l mask)).

(** [tf.boolean_mask(t, mask, axis=1)]. *)
Definition boolean_mask_axis1 {A : Type} (t : list (list A))
    (mask : list bool) : list (list A) :=
  map (fun frame => boolean_mask frame mask) t.

(** [tf.gather] along the leading axis; an index past the end reads the
    default (the library raises on CPU and returns zeros on GPU). *)
Definition gather {A : Type} (d : A) (l : list A) (indices : list nat)
    : list A :=
  map (fun i => nth i l d) indices.

(** [tf.gather(t, indices, axis=1)]. *)
Definition gather_axis1 {A : Type} (d : A) (t : list (list A))
    (indices : list nat) : list (list A) :=
  map (fun frame => gather d frame indices) t.

(** [l[:k]] with the library's reading of a negative bound. *)
Definition slice_to {A : Type} (k : Z) (l : list A) : list A :=
  if (k <? 0)%Z
  then firstn (Z.to_nat (Z.of_nat (length l) + k)) l
  else firstn (Z.to_nat k) l.

(** [t[:, :k, :]]. *)
Definition slice_axis1 {A : Type} (k : Z) (t : list (list A))
    : list (list A) :=
  map (slice_to k) t.

(** Element-wise combination of two vectors. *)
Fixpoint map2 {A B C : Type} (f : A -> B -> C) (l1 : list A) (l2 : list B)
    : list C :=
  match l1, l2 with
  | x :: t1, y :: t2 => f x y :: map2 f t1 t2
  | _, _ => []
  end.

(** [tf.concat([a, b], axis=1)]. *)
Definition concat_axis1 {A : Type} (a b : list (list A)) : list (list A) :=
  map2 (@app A) a b.

(** Two's-complement wrap of an int32 result. *)
Definition wrap32 (z : Z) : Z :=
  ((z + 2 ^ 31) mod 2 ^ 32 - 2 ^ 31)%Z.

(** [tf.cast(x, tf.int32)] of a float: truncation towards zero. *)
Definition cast_int32 (x : Q) : Z := Z.quot (Qnum x) (Zpos (Qden x)).

(** ** Rounding to float32 *)

(** The integer nearest to [q]; halfway between two integers, the even
    one. *)
Definition round_half_even (q : Q) : Z :=
  let f := Qfloor q in
  match Qcompare (q - inject_Z f) (1 # 2) with
  | Lt => f
  | Eq => if Z.even f then f else (f + 1)%Z
  | Gt => (f + 1)%Z
  end.

(** The largest of [e], [e - 1], ..., [e - fuel + 1] whose power of two is
    at most [x], and [e - fuel] when there is none. *)
Fixpoint exponent_from (fuel : nat) (e : Z) (x : Q) : Z :=
  match fuel with
  | O => e
  | S fuel' =>
      if Qle_bool (2 ^ e) x then e else exponent_from fuel' (e - 1) x
  end.

(** The exponent of the float32 numbers around [x >= 0]: the largest [e]
    in [-126 .. 127] with [2 ^ e <= x], and [-126] below [2 ^ (-126)], the
    subnormal range. *)
Definition float32_exponent (x : Q) : Z := exponent_from 253 127 x.

(** The float32 number nearest to [x], ties to the even significand: the
    multiple of [2 ^ (e - 23)] nearest to [x], where [e] is the exponent
    above.  Overflow to infinity is left out; the sums rounded below are
    finite sums of IoU values. *)
Definition float32 (x : Q) : Q :=
  let a := Qabs x in
  let ulp := 2 ^ (float32_exponent a - 23) in
  let m := inject_Z (round_half_even (a / ulp)) * ulp in
  if Qle_bool 0 x then m else - m.

Definition Qsum (l : list Q) : Q := fold_right Qplus 0 l.

(** [tf.reduce_sum(m, axis=1)] of a float32 matrix.  The library does not
    fix the order in which it adds the entries of a row; the sum of a row
    is here the float32 number nearest to the sum of its entries.  That is
    what every order of float32 additions returns on a row of float32
    numbers of which at most two are not zero, such as the IoU of a
    candidate with the one box it touches and with itself. *)
Definition reduce_sum_axis1 (m : list (list Q)) : list Q :=
  map (fun row => float32 (Qsum row)) m.

Fixpoint mapi_from {A B : Type} (f : nat -> A -> B) (i : nat) (l : list A)
    : list B :=
  match l with
  | [] => []
  | x :: t => f i x :: mapi_from f (S i) t
  end.

(** Entry [(m, n)] lies in the band when
    [(num_lower < 0 || m - n <= num_lower) && (num_upper < 0 || n - m <= num_upper)]. *)
Definition in_band (num_lower num_upper : Z) (m n : nat) : bool :=
  ((num_lower <? 0)%Z || (Z.of_nat m - Z.of_nat n <=? num_lower)%Z)
  && ((num_upper <? 0)%Z || (Z.of_nat n - Z.of_nat m <=? num_upper)%Z).

(** [tf.linalg.band_part]: entries outside the band become zero. *)
Definition band_part (input : list (list Q)) (num_lower num_upper : Z)
    : list (list Q) :=
  mapi_from
    (fun m row =>
       mapi_from
         (fun n x => if in_band num_lower num_upper m n then x else 0)
         0%nat row)
    0%nat input.

(** [firstn n l], filled with [d] up to [n] entries. *)
Definition pad_to {A : Type} (n : nat) (d : A) (l : list A) : list A :=
  firstn n l ++ repeat d (n - length l).

(** [tf.ragged.stack] of the per-frame matrices: a list of matrices whose row
    counts differ. *)
Definition ragged_stack (frames : list (list (list Q)))
    : list (list (list Q)) := frames.

(** [RaggedTensor.to_tensor(shape=[f, n, d])]: every axis is cut to the
    requested size or filled with zeros up to it. *)
Definition to_tensor (shape : nat * nat * nat) (rt : list (list (list Q)))
    : tensor 3 :=
  let '(f, n, d) := shape in
  pad_to f (repeat (repeat 0 d) n)
    (map (fun frame => pad_to n (repeat 0 d) (map (pad_to d 0) frame)) rt).

(** ** Randomness *)

(** One run of the generator inside [get_random_transformation]:
    [uniform] is the float returned by [random.uniform] and [shuffle] is what
    [tf.random.shuffle] does to its argument. *)
Record Draw : Type := {
  uniform : Q;
  shuffle : list nat -> list nat
}.

(** The transformation dictionary returned by [get_random_transformation]. *)
Record Transformation : Type := {
  OBJECT_POINT_CLOUDS : tensor 4;
  OBJECT_BOUNDING_BOXES : tensor 3
}.

(** The four entries of the inputs dictionary that the layer reads.  The two
    object entries have the keys of the transformation dictionary; their
    fields are prefixed to tell them apart.  [call] reads the first two
    entries with [inputs[KEY]]; the object entries may be missing from the
    dictionary ([None] here): [_augment] reads them with
    [inputs.get(KEY, None)]. *)
Record Inputs : Type := {
  POINT_CLOUDS : Tensor;
  BOUNDING_BOXES : Tensor;
  INPUT_OBJECT_POINT_CLOUDS : option Tensor;
  INPUT_OBJECT_BOUNDING_BOXES : option Tensor
}.

(** ** The layer *)

Section Layer.

(** Declared outside the sources and taken as parameters:
    - [CLASS], the index [CENTER_XYZ_DXDYDZ_PHI.CLASS] of the class
      feature of a box;
    - [iou], the 3D intersection-over-union of two boxes given by their
      first seven features, of which [iou_3d] builds the pairwise matrix;
    - [within_box3d], whether a point [x, y, z] lies in a box given by its
      first seven features, of which [is_within_any_box3d] takes the
      disjunction over the boxes. *)
Variable CLASS : nat.
Variable iou : tensor 1 -> tensor 1 -> Q.
Variable within_box3d : tensor 1 -> tensor 1 -> bool.

(** Modelled from the spec: [iou_3d] is imported from [keras_cv.ops], which
    is not among the sources.  It is the matrix of the pairwise 3D
    intersection-over-union: entry [(i, j)] is the IoU of [a[i]] and
    [b[j]]. *)
Definition iou_3d (a b : tensor 2) : tensor 2 :=
  map (fun x => map (iou x) b) a.

(** Modelled from the spec: [is_within_any_box3d] is imported from
    [keras_cv.point_cloud], which is not among the sources.  Frame by
    frame, a point is marked when it lies within some box of that frame
    (point-in-box membership). *)
Definition is_within_any_box3d (points boxes : tensor 3)
    : list (list bool) :=
  map2 (fun ps bs => map (fun p => existsb (within_box3d p) bs) ps)
       points boxes.

(** [label_index] as compared with a class feature. *)
Definition label_value (self : RandomCopyPaste) : Q :=
  match _label_index self with
  | Some z => inject_Z z
  | None => 0
  end.

Definition get_random_transformation (self : RandomCopyPaste) (draw : Draw)
    (bounding_boxes : tensor 3)
    (object_point_clouds : tensor 4)
    (object_bounding_boxes : tensor 3) : Transformation :=
  let num_paste_bounding_boxes := cast_int32 (uniform draw) in
  let num_existing_bounding_boxes := dim1 bounding_boxes in
  let '(object_point_clouds, object_bounding_boxes) :=
    if truthy (_label_index self) then
      let object_mask :=
        map (fun box => Qeq_bool (feature CLASS box) (label_value self))
            (hd [] object_bounding_boxes) in
      (boolean_mask_axis1 object_point_clouds object_mask,
       boolean_mask_axis1 object_bounding_boxes object_mask)
    else (object_point_clouds, object_bounding_boxes) in
  let shuffle_index :=
    shuffle draw (seq 0 (dim1 object_point_clouds)) in
  let object_point_clouds :=
    gather_axis1 [] object_point_clouds shuffle_index in
  let object_bounding_boxes :=
    gather_axis1 [] object_bounding_boxes shuffle_index in
  (* Load at most 5 times num_paste_bounding_boxes to check overlaps. *)
  let num_compare_bounding_boxes :=
    Z.min (wrap32 (num_paste_bounding_boxes * 5))
          (Z.of_nat (dim1 object_point_clouds)) in
  let object_point_clouds :=
    slice_axis1 num_compare_bounding_boxes object_point_clouds in
  let object_bounding_boxes :=
    slice_axis1 num_compare_bounding_boxes object_bounding_boxes in
  (* Use the current frame to check overlap between existing bounding
     boxes and pasted bounding boxes. *)
  let all_bounding_boxes :=
    map (firstn 7)
        (hd [] (concat_axis1 bounding_boxes object_bounding_boxes)) in
  let iou := iou_3d all_bounding_boxes all_bounding_boxes in
  let iou := band_part iou (-1) 0 in
  let iou_sum :=
    reduce_sum_axis1 (skipn num_existing_bounding_boxes iou) in
  (* A non overlapping bounding box has a 1.0 IoU with itself. *)
  let non_overlapping_mask := map (fun s => Qle_bool s 1) iou_sum in
  let object_point_clouds :=
    boolean_mask_axis1 object_point_clouds non_overlapping_mask in
  let object_bounding_boxes :=
    boolean_mask_axis1 object_bounding_boxes non_overlapping_mask in
  let object_point_clouds :=
    slice_axis1 num_paste_bounding_boxes object_point_clouds in
  let object_bounding_boxes :=
    slice_axis1 num_paste_bounding_boxes object_bounding_boxes in
  {| OBJECT_POINT_CLOUDS := object_point_clouds;
     OBJECT_BOUNDING_BOXES := object_bounding_boxes |}.

(** The body of the loop over [frame_index]: the two matrices appended to
    [point_clouds_list] and [bounding_boxes_list]. *)
Definition augment_frame (point_clouds bounding_boxes : tensor 3)
    (additional_object_point_clouds : tensor 4)
    (additional_object_bounding_boxes : tensor 3)
    (points_in_paste_bounding_boxes : list (list bool))
    (frame_index : nat) : tensor 2 * tensor 2 :=
  (* Remove background point clouds that are in object_bounding_boxes. *)
  let existing_point_clouds_mask :=
    map2 (fun inside cls => negb inside && greater cls 0)
         (nth frame_index points_in_paste_bounding_boxes [])
         (map (feature 3) (nth frame_index point_clouds [])) in
  let existing_point_clouds :=
    boolean_mask (nth frame_index point_clouds [])
                 existing_point_clouds_mask in
  let paste_objects :=
    nth frame_index additional_object_point_clouds [] in
  let paste_point_clouds :=
    boolean_mask
      (concat paste_objects)
      (concat (map (map (fun p => greater (feature 3 p) 0))
                   paste_objects)) in
  let existing_bounding_boxes :=
    boolean_mask
      (nth frame_index bounding_boxes [])
      (map (fun b => greater (feature CLASS b) 0)
           (nth frame_index bounding_boxes [])) in
  let paste_bounding_boxes :=
    boolean_mask
      (nth frame_index additional_object_bounding_boxes [])
      (map (fun b => greater (feature CLASS b) 0)
           (nth frame_index additional_object_bounding_boxes [])) in
  (paste_point_clouds ++ existing_point_clouds,
   paste_bounding_boxes ++ existing_bounding_boxes).

Definition augment_point_clouds_bounding_boxes
    (point_clouds bounding_boxes : tensor 3)
    (transformation : Transformation) : tensor 3 * tensor 3 :=
  let additional_object_point_clouds :=
    OBJECT_POINT_CLOUDS transformation in
  let additional_object_bounding_boxes :=
    OBJECT_BOUNDING_BOXES transformation in
  let original_point_clouds_shape := get_shape point_clouds in
  let original_object_bounding_boxes := get_shape bounding_boxes in
  let points_in_paste_bounding_boxes :=
    is_within_any_box3d
      (map (map (firstn 3)) point_clouds)
      (map (map (firstn 7)) additional_object_bounding_boxes) in
  let num_frames := length point_clouds in
  let '(point_clouds_list, bounding_boxes_list) :=
    fold_left
      (fun (lists : list (tensor 2) * list (tensor 2)) frame_index =>
         let '(p, b) :=
           augment_frame point_clouds bounding_boxes
             additional_object_point_clouds
             additional_object_bounding_boxes
             points_in_paste_bounding_boxes frame_index in
         (fst lists ++ [p], snd lists ++ [b]))
      (seq 0 num_frames) ([], []) in
  let point_clouds := ragged_stack point_clouds_list in
  let bounding_boxes := ragged_stack bounding_boxes_list in
  (to_tensor original_point_clouds_shape point_clouds,
   to_tensor original_object_bounding_boxes bounding_boxes).

(** [_augment] on the entries of a rank-3 scene; the two object tensors are
    passed through unchanged in the result dictionary. *)
Definition _augment (self : RandomCopyPaste) (draw : Draw)
    (point_clouds bounding_boxes : tensor 3)
    (object_point_clouds : tensor 4)
    (object_bounding_boxes : tensor 3) : tensor 3 * tensor 3 :=
  let transformation :=
    get_random_transformation self draw bounding_boxes
      object_point_clouds object_bounding_boxes in
  augment_point_clouds_bounding_boxes point_clouds bounding_boxes
    transformation.

End Layer.

(** ** The entry point *)

Section Call.

Variable CLASS : nat.
Variable iou : tensor 1 -> tensor 1 -> Q.
Variable within_box3d : tensor 1 -> tensor 1 -> bool.

(** The message of the tensor library when it is handed [None] where it
    expects a tensor; the wording is the library's. *)
Definition none_message : string :=
  "Attempt to convert a value (None) with an unsupported type (<class 'NoneType'>) to a Tensor.".

(** [_augment] on the dictionary of a rank-3 scene; the result is the pair
    of tensors that [result.update] stores under [POINT_CLOUDS] and
    [BOUNDING_BOXES].

    An object entry that is missing reaches [get_random_transformation] as
    [None].  With a truthy [label_index] the first use of the object
    entries is the subscript [object_bounding_boxes[0, :, CLASS]], a
    [TypeError] on [None].  With a falsy [label_index] it is
    [tf.shape(object_point_clouds)], which raises [ValueError] on [None].
    In the two remaining cases [None] is met after other operations on the
    entry that is present, and the class of the exception is left open, as
    it is for an object tensor of the wrong rank.  Object tensors of the
    expected ranks go to [_augment] as they are; its operations are total,
    and the statements about [call] list the shapes they assume. *)
Definition _augment_dict (self : RandomCopyPaste) (draw : Draw)
    (inputs : Inputs) : result (tensor 3 * tensor 3) :=
  match as_rank3 (POINT_CLOUDS inputs), as_rank3 (BOUNDING_BOXES inputs) with
  | Some point_clouds, Some bounding_boxes =>
      match INPUT_OBJECT_POINT_CLOUDS inputs,
            INPUT_OBJECT_BOUNDING_BOXES inputs with
      | Some object_point_clouds, Some object_bounding_boxes =>
          match as_rank4 object_point_clouds,
                as_rank3 object_bounding_boxes with
          | Some op, Some ob =>
              Ok (_augment CLASS iou within_box3d self draw
                    point_clouds bounding_boxes op ob)
          | _, _ => Raise TensorLibraryError
          end
      | object_point_clouds, object_bounding_boxes =>
          if truthy (_label_index self) then
            match object_bounding_boxes with
            | None => Raise TypeError
            | Some _ => Raise TensorLibraryError
            end
          else
            match object_point_clouds with
            | None => Raise (ValueError none_message)
            | Some _ => Raise TensorLibraryError
            end
      end
  | _, _ => Raise TensorLibraryError
  end.

(** [t[i]]; a scalar has no entries, and an index past the end is
    rejected by the tensor library. *)
Definition index (t : Tensor) (i : nat) : result Tensor :=
  match t with
  | existT _ (S r) x =>
      match nth_error x i with
      | Some y => Ok (existT tensor r y)
      | None => Raise TensorLibraryError
      end
  | existT _ O _ => Raise TensorLibraryError
  end.

(** [inputs[KEY]] on an object entry. *)
Definition lookup (entry : option Tensor) : result Tensor :=
  match entry with
  | Some t => Ok t
  | None => Raise KeyError
  end.

(** The dictionary [no_batch_inputs] of the [i]-th scene of a batch, its
    entries evaluated in the order of the source. *)
Definition no_batch_inputs (inputs : Inputs) (i : nat) : result Inputs :=
  point_clouds <- index (POINT_CLOUDS inputs) i ;;
  bounding_boxes <- index (BOUNDING_BOXES inputs) i ;;
  all_object_point_clouds <- lookup (INPUT_OBJECT_POINT_CLOUDS inputs) ;;
  object_point_clouds <- index all_object_point_clouds i ;;
  all_object_bounding_boxes <- lookup (INPUT_OBJECT_BOUNDING_BOXES inputs) ;;
  object_bounding_boxes <- index all_object_bounding_boxes i ;;
  Ok {| POINT_CLOUDS := point_clouds;
        BOUNDING_BOXES := bounding_boxes;
        INPUT_OBJECT_POINT_CLOUDS := Some object_point_clouds;
        INPUT_OBJECT_BOUNDING_BOXES := Some object_bounding_boxes |}.

(** The loop [for i in range(batch)]; the [i]-th call of [_augment] uses
    the [i]-th draw of the generator. *)
Fixpoint augment_batch (self : RandomCopyPaste) (draws : nat -> Draw)
    (inputs : Inputs) (indices : list nat) : result (tensor 4 * tensor 4) :=
  match indices with
  | [] => Ok ([], [])
  | i :: rest =>
      no_batch <- no_batch_inputs inputs i ;;
      no_batch_result <- _augment_dict self (draws i) no_batch ;;
      lists <- augment_batch self draws inputs rest ;;
      Ok (fst no_batch_result :: fst lists,
          snd no_batch_result :: snd lists)
  end.

(** [t.get_shape().as_list()[0]] of a tensor of rank at least 1. *)
Definition dim0 (t : Tensor) : nat :=
  match t with
  | existT _ (S r) x => length x
  | existT _ O _ => 0%nat
  end.

(** The formatted shapes at the end of the message are left out. *)
Definition rank_message : string :=
  "Point clouds augmentation layers are expecting inputs point clouds and bounding boxes to be rank 3D (Frame, Point, Feature) or 4D (Batch, Frame, Point, Feature) tensors.".

(** [call].  With an empty batch the loop builds two empty lists, and the
    tensor library rejects [tf.concat] of an empty list. *)
Definition call (self : RandomCopyPaste) (draws : nat -> Draw)
    (inputs : Inputs) : result Inputs :=
  let point_clouds := POINT_CLOUDS inputs in
  let bounding_boxes := BOUNDING_BOXES inputs in
  if (rank point_clouds =? 3)%nat && (rank bounding_boxes =? 3)%nat then
    r <- _augment_dict self (draws 0%nat) inputs ;;
    Ok {| POINT_CLOUDS := existT tensor 3%nat (fst r);
          BOUNDING_BOXES := existT tensor 3%nat (snd r);
          INPUT_OBJECT_POINT_CLOUDS := INPUT_OBJECT_POINT_CLOUDS inputs;
          INPUT_OBJECT_BOUNDING_BOXES := INPUT_OBJECT_BOUNDING_BOXES inputs |}
  else if (rank point_clouds =? 4)%nat && (rank bounding_boxes =? 4)%nat
  then
    let batch := dim0 point_clouds in
    lists <- augment_batch self draws inputs (seq 0 batch) ;;
    if (batch =? 0)%nat then Raise TensorLibraryError
    else
      Ok {| POINT_CLOUDS := existT tensor 4%nat (fst lists);
            BOUNDING_BOXES := existT tensor 4%nat (snd lists);
            INPUT_OBJECT_POINT_CLOUDS := INPUT_OBJECT_POINT_CLOUDS inputs;
            INPUT_OBJECT_BOUNDING_BOXES :=
              INPUT_OBJECT_BOUNDING_BOXES inputs |}
  else Raise (ValueError rank_message).

End Call.

(** ** Upright boxes with zero heading

    An instance of the two geometric parameters, used to run the layer on
    concrete scenes: boxes [x, y, z, dx, dy, dz, phi] whose heading is not
    read, so that intersections are products of interval overlaps. *)

Module AxisAligned.

(** Length of the overlap of the intervals of centre [c1], [c2] and width
    [d1], [d2]. *)
Definition overlap (c1 d1 c2 d2 : Q) : Q :=
  Qmax 0 (Qmin (c1 + d1 / 2) (c2 + d2 / 2)
          - Qmax (c1 - d1 / 2) (c2 - d2 / 2)).

Definition volume (b : tensor 1) : Q :=
  feature 3 b * feature 4 b * feature 5 b.

(** A box with a side that is not positive encloses nothing. *)
Definition valid (b : tensor 1) : bool :=
  greater (feature 3 b) 0 && greater (feature 4 b) 0
  && greater (feature 5 b) 0.

Definition intersection (a b : tensor 1) : Q :=
  overlap (feature 0 a) (feature 3 a) (feature 0 b) (feature 3 b)
  * overlap (feature 1 a) (feature 4 a) (feature 1 b) (feature 4 b)
  * overlap (feature 2 a) (feature 5 a) (feature 2 b) (feature 5 b).

Definition iou (a b : tensor 1) : Q :=
  if valid a && valid b then
    intersection a b / (volume a + volume b - intersection a b)
  else 0.

Definition between (c d x : Q) : bool :=
  Qle_bool (c - d / 2) x && Qle_bool x (c + d / 2).

Definition within_box3d (p b : tensor 1) : bool :=
  between (feature 0 b) (feature 3 b) (feature 0 p)
  && between (feature 1 b) (feature 4 b) (feature 1 p)
  && between (feature 2 b) (feature 5 b) (feature 2 p).

(** The class feature follows the seven geometric ones. *)
Definition CLASS : nat := 7.

End AxisAligned.

(** ** Shapes *)

(** [t] is a dense [f x n x d] tensor. *)
Definition has_shape3 (f n d : nat) (t : tensor 3) : bool :=
  (length t =? f)%nat
  && forallb
       (fun frame =>
          (length frame =? n)%nat
          && forallb (fun row : tensor 1 => (length row =? d)%nat) frame)
       t.

(** [t] is a dense [f x k x p x d] tensor. *)
Definition has_shape4 (f k p d : nat) (t : tensor 4) : bool :=
  (length t =? f)%nat && forallb (has_shape3 k p d) t.

(** The four tensors of a scene are dense and agree on their common
    dimensions: [f >= 1] frames, [d] features per point, [e] features per
    box and [k] candidate objects. *)
Definition dense_scene (point_clouds bounding_boxes : tensor 3)
    (object_point_clouds : tensor 4) (object_bounding_boxes : tensor 3)
    : Prop :=
  exists f n d m e k q : nat,
    (0 < f)%nat
    /\ has_shape3 f n d point_clouds = true
    /\ has_shape3 f m e bounding_boxes = true
    /\ has_shape4 f k q d object_point_clouds = true
    /\ has_shape3 f k e object_bounding_boxes = true.

(** ** The frame contents the specification describes

    The rows the specification lists for frame [f] of the two outputs, to be
    compared with what [augment_point_clouds_bounding_boxes] returns. *)

Section FrameContents.

Variable CLASS : nat.
Variable within_box3d : tensor 1 -> tensor 1 -> bool.

(** The point [p], read through its features [x, y, z], lies in none of
    [boxes]. *)
Definition outside_every_box (boxes : tensor 2) (p : tensor 1) : bool :=
  negb (existsb (within_box3d (firstn 3 p)) (map (firstn 7) boxes)).

(** The pasted object points of frame [f] whose class feature is positive. *)
Definition spec_paste_points (transformation : Transformation) (f : nat)
    : tensor 2 :=
  filter (fun p => greater (feature 3 p) 0)
         (concat (nth f (OBJECT_POINT_CLOUDS transformation) [])).

(** The input points of frame [f] that lie outside every pasted box of
    that frame and whose class feature is positive. *)
Definition spec_existing_points (point_clouds : tensor 3)
    (transformation : Transformation) (f : nat) : tensor 2 :=
  filter
    (fun p =>
       outside_every_box (nth f (OBJECT_BOUNDING_BOXES transformation) []) p
       && greater (feature 3 p) 0)
    (nth f point_clouds []).

(** The pasted boxes of frame [f] whose class feature is positive. *)
Definition spec_paste_boxes (transformation : Transformation) (f : nat)
    : tensor 2 :=
  filter (fun b => greater (feature CLASS b) 0)
         (nth f (OBJECT_BOUNDING_BOXES transformation) []).

(** The input boxes of frame [f] whose class feature is positive. *)
Definition spec_existing_boxes (bounding_boxes : tensor 3) (f : nat)
    : tensor 2 :=
  filter (fun b => greater (feature CLASS b) 0) (nth f bounding_boxes []).

End FrameContents.

(** The number of candidate objects: with a truthy [label_index], the
    objects whose box in the first frame carries that class; otherwise all
    of them. *)
Definition candidates_after_filter (CLASS : nat) (self : RandomCopyPaste)
    (object_bounding_boxes : tensor 3) : nat :=
  if truthy (_label_index self) then
    length (filter
              (fun box => Qeq_bool (feature CLASS box) (label_value self))
              (hd [] object_bounding_boxes))
  else dim1 object_bounding_boxes.

(** ** Concrete scenes

    Small scenes of upright boxes of side [2] on the [x] axis, on which the
    layer is run. *)

Module Scenes.

(** A box centred at [(x, 0, 0)] with sides [2] and class [cls]. *)
Definition box (x cls : Q) : tensor 1 := [x; 0; 0; 2; 2; 2; 0; cls].

(** A point [(x, 0, 0)] with class [cls] and range [1]. *)
Definition point (x cls : Q) : tensor 1 := [x; 0; 0; cls; 1].

(** A padding row. *)
Definition zero_box : tensor 1 := [0; 0; 0; 0; 0; 0; 0; 0].

(** The layer with its default arguments. *)
Definition layer : RandomCopyPaste :=
  {| _label_index := None;
     _min_paste_bounding_boxes := 0;
     _max_paste_bounding_boxes := 10 |}.

(** The layer that pastes objects of class [1] only. *)
Definition layer_class_1 : RandomCopyPaste :=
  {| _label_index := Some 1%Z;
     _min_paste_bounding_boxes := 0;
     _max_paste_bounding_boxes := 10 |}.

(** The generator returns [u] and leaves the order of the candidates. *)
Definition draw (u : Q) : Draw :=
  {| uniform := u; shuffle := fun l => l |}.

(** One frame; of four candidates the first overlaps the existing box and
    the third overlaps the second. *)
Definition street_boxes : tensor 3 := [[box 0 1]].
Definition parked_boxes : tensor 3 :=
  [[box 1 1; box 10 1; box 11 1; box 20 1]].
Definition parked_points : tensor 4 :=
  [[[point 1 1]; [point 10 1]; [point 11 1]; [point 20 1]]].

(** Two frames; the candidate stands clear in the first frame and on the
    existing box in the second. *)
Definition two_frame_boxes : tensor 3 := [[box 0 1]; [box 0 1]].
Definition moving_boxes : tensor 3 := [[box 10 1]; [box 0 1]].
Definition moving_points : tensor 4 := [[[point 10 1]]; [[point 0 1]]].

(** Two frames; the candidate of class [1] is absent from the second
    frame, where its row is padding. *)
Definition leaving_boxes : tensor 3 := [[box 10 1]; [zero_box]].
Definition leaving_points : tensor 4 := [[[point 10 1]]; [[point 0 0]]].

(** One frame without padding: every row of the inputs is a labelled
    point or box, and one object is pasted away from them. *)
Definition full_point_clouds : tensor 3 :=
  [[point 0 1; point 5 1; point 7 1]].
Definition full_boxes : tensor 3 := [[box 0 1; box 5 1]].
Definition far_boxes : tensor 3 := [[box 10 1]].
Definition far_points : tensor 4 := [[[point 10 1; point 0 0]]].

(** One frame with a background point under the pasted box and an
    unlabelled point. *)
Definition sparse_point_clouds : tensor 3 :=
  [[point 0 1; point 10 1; point 3 0]].
Definition sparse_boxes : tensor 3 := [[box 0 1; zero_box]].
Definition pasted_points : tensor 4 := [[[point (51 # 5) 1; point 0 0]]].

(** A batch of two scenes. *)
Definition batch : Inputs :=
  {| POINT_CLOUDS :=
       existT tensor 4%nat [full_point_clouds; sparse_point_clouds];
     BOUNDING_BOXES := existT tensor 4%nat [full_boxes; sparse_boxes];
     INPUT_OBJECT_POINT_CLOUDS :=
       Some (existT tensor 5%nat [far_points; pasted_points]);
     INPUT_OBJECT_BOUNDING_BOXES :=
       Some (existT tensor 4%nat [far_boxes; far_boxes]) |}.

(** A rank-3 point cloud handed over with a batch of boxes. *)
Definition mixed_ranks : Inputs :=
  {| POINT_CLOUDS := existT tensor 3%nat sparse_point_clouds;
     BOUNDING_BOXES := existT tensor 4%nat [sparse_boxes];
     INPUT_OBJECT_POINT_CLOUDS := Some (existT tensor 4%nat pasted_points);
     INPUT_OBJECT_BOUNDING_BOXES := Some (existT tensor 3%nat far_boxes) |}.

(** The sparse frame handed over without the two object entries. *)
Definition no_objects : Inputs :=
  {| POINT_CLOUDS := existT tensor 3%nat sparse_point_clouds;
     BOUNDING_BOXES := existT tensor 3%nat sparse_boxes;
     INPUT_OBJECT_POINT_CLOUDS := None;
     INPUT_OBJECT_BOUNDING_BOXES := None |}.

(** The transformation drawn on the sparse frame. *)
Definition sparse_transformation : Transformation :=
  get_random_transformation AxisAligned.CLASS AxisAligned.iou
    layer (draw 1) sparse_boxes pasted_points far_boxes.

End Scenes.

(** ** An open road

    One frame with one existing box and three candidates that overlap
    nothing; the generator reverses the order of the candidates. *)

Module OpenRoad.

Definition draw (u : Q) : Draw :=
  {| uniform := u; shuffle := @rev nat |}.

Definition existing_boxes : tensor 3 := [[Scenes.box 0 1]].

Definition candidate_boxes : tensor 3 :=
  [[Scenes.box 10 1; Scenes.box 20 2; Scenes.box 30 1]].

Definition candidate_points : tensor 4 :=
  [[[Scenes.point 10 1]; [Scenes.point 20 2]; [Scenes.point 30 1]]].

End OpenRoad.

(** ** A crowded kerb

    One frame in which the first five candidates stand on the existing box
    and the sixth stands clear. *)

Module CrowdedKerb.

Definition existing_boxes : tensor 3 := [[Scenes.box 0 1]].

Definition candidate_boxes : tensor 3 :=
  [[Scenes.box (1 # 10) 1; Scenes.box (2 # 10) 1; Scenes.box (3 # 10) 1;
    Scenes.box (4 # 10) 1; Scenes.box (5 # 10) 1; Scenes.box 50 1]].

Definition candidate_points : tensor 4 :=
  [[[Scenes.point (1 # 10) 1]; [Scenes.point (2 # 10) 1];
    [Scenes.point (3 # 10) 1]; [Scenes.point (4 # 10) 1];
    [Scenes.point (5 # 10) 1]; [Scenes.point 50 1]]].

End CrowdedKerb.

(** ** A grazing candidate

    One frame with a unit cube at the origin and a candidate unit cube
    moved along [x] by [1 - 2 ^ (-24)]: the two cubes share a slab of
    thickness [2 ^ (-24)], and their IoU is [1 / 33554431]. *)

Module Grazing.

Definition cube (x : Q) : tensor 1 := [x; 0; 0; 1; 1; 1; 0; 1].

Definition existing_boxes : tensor 3 := [[cube 0]].

Definition candidate_boxes : tensor 3 := [[cube (16777215 # 16777216)]].

Definition candidate_points : tensor 4 :=
  [[[Scenes.point (16777215 # 16777216) 1]]].

End Grazing.

(** * Properties *)

(** ** The constructor *)

(** C5: the constructor raises [ValueError] exactly when one of the two
    counts is negative, the maximum is below the minimum, or [label_index] is
    truthy and negative; [None] and [0] pass the label test, and an accepted
    layer reports its three arguments unchanged through [get_config]. *)
Theorem init_raises_iff :
  forall (label_index : option Z) (lo hi : Z),
    (raises_ValueError (__init__ label_index lo hi) <->
       (lo < 0)%Z \/ (hi < 0)%Z \/ (hi < lo)%Z
       \/ exists z, label_index = Some z /\ z <> 0%Z /\ (z < 0)%Z)
    /\ ((label_index = None \/ label_index = Some 0%Z) ->
        (0 <= lo)%Z -> (lo <= hi)%Z ->
        exists self, __init__ label_index lo hi = Ok self)
    /\ (forall self,
          __init__ label_index lo hi = Ok self ->
          get_config self = (label_index, lo, hi)).
Proof.
  intros label_index lo hi.
  unfold __init__, raises_ValueError.
  assert (Hlabel :
            truthy label_index && label_negative label_index = true
            <-> exists z, label_index = Some z /\ z <> 0%Z /\ (z < 0)%Z).
  { destruct label_index as [z|]; simpl.
    - rewrite andb_true_iff, negb_true_iff, Z.eqb_neq, Z.ltb_lt.
      split.
      + intros [Hnz Hneg]. exists z. auto.
      + intros [z' [Heq [Hnz Hneg]]]. injection Heq as ->. auto.
    - split; [discriminate|]. intros [z [Heq _]]. discriminate. }
  destruct (truthy label_index && label_negative label_index) eqn:Elabel.
  - repeat split.
    + intros _. right. right. right. apply Hlabel. reflexivity.
    + intros _. eexists. reflexivity.
    + intros [Hnone | Hzero] _ _; subst; discriminate.
    + intros self H. discriminate.
  - assert (Hno : ~ exists z, label_index = Some z /\ z <> 0%Z /\ (z < 0)%Z).
    { intro H. apply Hlabel in H. discriminate. }
    destruct (Z.ltb_spec lo 0); [|destruct (Z.ltb_spec hi 0);
                                   [|destruct (Z.ltb_spec hi lo)]].
    + repeat split.
      * auto.
      * intros _. eexists. reflexivity.
      * intros; lia.
      * intros self Hs. discriminate.
    + repeat split.
      * auto.
      * intros _. eexists. reflexivity.
      * intros; lia.
      * intros self Hs. discriminate.
    + repeat split.
      * auto.
      * intros _. eexists. reflexivity.
      * intros; lia.
      * intros self Hs. discriminate.
    + repeat split.
      * intros [msg Hmsg]. discriminate.
      * intros [Hlo | [Hhi | [Hlt | Hl]]]; try lia. contradiction.
      * intros. eexists. reflexivity.
      * intros self Hs. injection Hs as <-. reflexivity.
Qed.

(** The default arguments are accepted, and so is the label [0]. *)
Lemma init_raises_iff_witness :
  (exists self, __init__ None 0 10 = Ok self)
  /\ (exists self, __init__ (Some 0%Z) 0 10 = Ok self)
  /\ raises_ValueError (__init__ (Some (-1)%Z) 0 10).
Proof.
  split; [|split].
  - apply (proj1 (proj2 (init_raises_iff None 0 10)));
      [left; reflexivity | lia | lia].
  - apply (proj1 (proj2 (init_raises_iff (Some 0%Z) 0 10)));
      [right; reflexivity | lia | lia].
  - apply (proj1 (init_raises_iff (Some (-1)%Z) 0 10)).
    right. right. right. exists (-1)%Z. repeat split; lia.
Defined.

(** ** Lists *)

Lemma boolean_mask_map_filter :
  forall (A : Type) (p : A -> bool) (l : list A),
    boolean_mask l (map p l) = filter p l.
Proof.
  intros A p l. unfold boolean_mask.
  induction l as [|x l IH]; simpl; [reflexivity|].
  destruct (p x); simpl; rewrite IH; reflexivity.
Qed.

Lemma boolean_mask_nil :
  forall (A : Type) (mask : list bool), boolean_mask (@nil A) mask = [].
Proof. reflexivity. Qed.

Lemma boolean_mask_cons :
  forall (A : Type) (x : A) (l : list A) (b : bool) (mask : list bool),
    boolean_mask (x :: l) (b :: mask)
    = if b then x :: boolean_mask l mask else boolean_mask l mask.
Proof.
  intros A x l b mask. unfold boolean_mask. simpl.
  destruct b; reflexivity.
Qed.

Lemma boolean_mask_length :
  forall (A : Type) (l : list A) (mask : list bool),
    (length (boolean_mask l mask) <= length l)%nat.
Proof.
  intros A l. induction l as [|x l IH]; intros mask; [simpl; lia|].
  destruct mask as [|b mask]; [simpl; lia|].
  rewrite boolean_mask_cons. specialize (IH mask).
  destruct b; simpl; lia.
Qed.

Lemma boolean_mask_In :
  forall (A : Type) (l : list A) (mask : list bool) (x : A),
    In x (boolean_mask l mask) -> In x l.
Proof.
  intros A l. induction l as [|y l IH]; intros mask x H; [contradiction|].
  destruct mask as [|b mask]; [contradiction|].
  rewrite boolean_mask_cons in H.
  destruct b; simpl in *; [destruct H as [H|H]|]; eauto.
Qed.

Lemma In_firstn :
  forall (A : Type) (n : nat) (l : list A) (x : A),
    In x (firstn n l) -> In x l.
Proof.
  intros A n l x H. rewrite <- (firstn_skipn n l).
  apply in_or_app. left. exact H.
Qed.

Lemma slice_to_firstn :
  forall (A : Type) (k : Z) (l : list A),
    exists n, slice_to k l = firstn n l.
Proof.
  intros A k l. unfold slice_to.
  destruct (k <? 0)%Z; eexists; reflexivity.
Qed.

Lemma slice_to_length :
  forall (A : Type) (k : Z) (l : list A),
    (length (slice_to k l) <= length l)%nat.
Proof.
  intros A k l. destruct (slice_to_firstn _ k l) as [n ->].
  rewrite length_firstn. lia.
Qed.

Lemma slice_to_length_nonneg :
  forall (A : Type) (k : Z) (l : list A),
    (0 <= k)%Z -> (Z.of_nat (length (slice_to k l)) <= k)%Z.
Proof.
  intros A k l Hk. unfold slice_to.
  destruct (Z.ltb_spec k 0); [lia|].
  rewrite length_firstn. lia.
Qed.

Lemma slice_to_In :
  forall (A : Type) (k : Z) (l : list A) (x : A),
    In x (slice_to k l) -> In x l.
Proof.
  intros A k l x. destruct (slice_to_firstn _ k l) as [n ->].
  apply In_firstn.
Qed.

Lemma pad_to_length :
  forall (A : Type) (n : nat) (d : A) (l : list A),
    length (pad_to n d l) = n.
Proof.
  intros A n d l. unfold pad_to.
  rewrite length_app, length_firstn, repeat_length. lia.
Qed.

Lemma pad_to_exact :
  forall (A : Type) (d : A) (l : list A), pad_to (length l) d l = l.
Proof.
  intros A d l. unfold pad_to.
  rewrite firstn_all, Nat.sub_diag. simpl. apply app_nil_r.
Qed.

Lemma pad_to_Forall :
  forall (A : Type) (P : A -> Prop) (n : nat) (d : A) (l : list A),
    P d -> Forall P l -> Forall P (pad_to n d l).
Proof.
  intros A P n d l Hd Hl. unfold pad_to. apply Forall_app. split.
  - apply Forall_forall. intros x Hx.
    apply In_firstn in Hx. rewrite Forall_forall in Hl. auto.
  - apply Forall_forall. intros x Hx.
    apply repeat_spec in Hx. subst. exact Hd.
Qed.

Lemma map_pad_to_rows :
  forall (d : nat) (rows : tensor 2),
    Forall (fun row : tensor 1 => length row = d) rows ->
    map (pad_to d 0) rows = rows.
Proof.
  intros d rows H. induction H as [|row rows Hrow _ IH]; simpl.
  - reflexivity.
  - rewrite IH. rewrite <- Hrow at 1. rewrite pad_to_exact. reflexivity.
Qed.

Lemma loop_accumulates :
  forall (A B I : Type) (body : I -> A * B) (l : list I)
         (acc1 : list A) (acc2 : list B),
    fold_left
      (fun (lists : list A * list B) i =>
         let '(p, b) := body i in (fst lists ++ [p], snd lists ++ [b]))
      l (acc1, acc2)
    = (acc1 ++ map (fun i => fst (body i)) l,
       acc2 ++ map (fun i => snd (body i)) l).
Proof.
  intros A B I body l. induction l as [|i l IH]; intros acc1 acc2; simpl.
  - rewrite !app_nil_r. reflexivity.
  - destruct (body i) as [p b] eqn:E. simpl.
    rewrite IH. rewrite <- !app_assoc. reflexivity.
Qed.

(** ** Shapes of dense tensors *)

Lemma has_shape3_spec :
  forall (f n d : nat) (t : tensor 3),
    has_shape3 f n d t = true <->
    length t = f
    /\ Forall (fun frame : tensor 2 =>
                 length frame = n
                 /\ Forall (fun row : tensor 1 => length row = d) frame) t.
Proof.
  intros f n d t. unfold has_shape3.
  rewrite andb_true_iff, Nat.eqb_eq, forallb_forall, Forall_forall.
  split; intros [Hlen Hrows]; split; try exact Hlen; intros frame Hin.
  - specialize (Hrows frame Hin).
    rewrite andb_true_iff, Nat.eqb_eq, forallb_forall in Hrows.
    destruct Hrows as [Hn Hd]. split; [exact Hn|].
    apply Forall_forall. intros row Hrow. apply Nat.eqb_eq. auto.
  - destruct (Hrows frame Hin) as [Hn Hd].
    rewrite andb_true_iff, Nat.eqb_eq, forallb_forall. split; [exact Hn|].
    intros row Hrow. apply Nat.eqb_eq.
    rewrite Forall_forall in Hd. auto.
Qed.

Lemma has_shape3_nth :
  forall (f n d : nat) (t : tensor 3) (i : nat),
    has_shape3 f n d t = true -> (i < f)%nat ->
    length (nth i t []) = n
    /\ Forall (fun row : tensor 1 => length row = d) (nth i t []).
Proof.
  intros f n d t i H Hi. apply has_shape3_spec in H.
  destruct H as [Hlen Hall]. rewrite Forall_forall in Hall.
  apply Hall. apply nth_In. lia.
Qed.

Lemma has_shape4_spec :
  forall (f k p d : nat) (t : tensor 4),
    has_shape4 f k p d t = true <->
    length t = f /\ Forall (fun x => has_shape3 k p d x = true) t.
Proof.
  intros f k p d t. unfold has_shape4.
  rewrite andb_true_iff, Nat.eqb_eq, forallb_forall, Forall_forall.
  reflexivity.
Qed.

Lemma has_shape3_no_rows :
  forall (f d d' : nat) (t : tensor 3),
    has_shape3 f 0 d t = true -> has_shape3 f 0 d' t = true.
Proof.
  intros f d d' t H. apply has_shape3_spec in H. apply has_shape3_spec.
  destruct H as [Hlen Hall]. split; [exact Hlen|].
  eapply Forall_impl; [|exact Hall].
  intros frame [Hn _]. split; [exact Hn|].
  destruct frame; [constructor | discriminate].
Qed.

Lemma get_shape_of_shape :
  forall (f n d : nat) (t : tensor 3),
    has_shape3 f n d t = true -> (0 < f)%nat ->
    get_shape t = (f, n, if (n =? 0)%nat then 0%nat else d).
Proof.
  intros f n d t H Hf. apply has_shape3_spec in H.
  destruct H as [Hlen Hall]. unfold get_shape.
  destruct t as [|frame t]; [simpl in Hlen; lia|].
  inversion Hall as [|? ? [Hn Hd] _]; subst. simpl hd.
  destruct frame as [|row frame]; simpl.
  - reflexivity.
  - inversion Hd; subst. reflexivity.
Qed.

Lemma to_tensor_has_shape :
  forall (f n d : nat) (rt : list (list (list Q))),
    has_shape3 f n d (to_tensor (f, n, d) rt) = true.
Proof.
  intros f n d rt. apply has_shape3_spec. unfold to_tensor. split.
  - apply pad_to_length.
  - apply pad_to_Forall.
    + split; [apply repeat_length|].
      apply Forall_forall. intros row Hrow.
      apply repeat_spec in Hrow. subst. apply repeat_length.
    + apply Forall_forall. intros frame Hin.
      apply in_map_iff in Hin. destruct Hin as [x [<- _]]. split.
      * apply pad_to_length.
      * apply pad_to_Forall; [apply repeat_length|].
        apply Forall_forall. intros row Hrow.
        apply in_map_iff in Hrow. destruct Hrow as [y [<- _]].
        apply pad_to_length.
Qed.

Lemma to_tensor_nth :
  forall (f n d i : nat) (rt : list (list (list Q))),
    length rt = f -> (i < f)%nat ->
    nth i (to_tensor (f, n, d) rt) []
    = pad_to n (repeat 0 d) (map (pad_to d 0) (nth i rt [])).
Proof.
  intros f n d i rt Hlen Hi. unfold to_tensor.
  set (g := fun frame : list (list Q) =>
              pad_to n (repeat 0 d) (map (pad_to d 0) frame)).
  assert (Hpad : pad_to f (repeat (repeat 0 d) n) (map g rt) = map g rt).
  { rewrite <- Hlen. rewrite <- (length_map g rt). apply pad_to_exact. }
  rewrite Hpad.
  rewrite (nth_indep (map g rt) [] (g [])) by (rewrite length_map; lia).
  rewrite map_nth. reflexivity.
Qed.

(** ** The augmentation step *)

Lemma map2_map_same :
  forall (A B C D : Type) (h : B -> C -> D) (a : A -> B) (b : A -> C)
         (l : list A),
    map2 h (map a l) (map b l) = map (fun x => h (a x) (b x)) l.
Proof.
  intros A B C D h a b l. induction l as [|x l IH]; simpl.
  - reflexivity.
  - rewrite IH. reflexivity.
Qed.

Lemma map2_nth :
  forall (A B C : Type) (f : A -> B -> C) (l1 : list A) (l2 : list B)
         (i : nat) (d1 : A) (d2 : B) (d : C),
    (i < length l1)%nat -> (i < length l2)%nat ->
    nth i (map2 f l1 l2) d = f (nth i l1 d1) (nth i l2 d2).
Proof.
  intros A B C f l1. induction l1 as [|x l1 IH]; intros l2 i d1 d2 d H1 H2.
  - simpl in H1. lia.
  - destruct l2 as [|y l2]; [simpl in H2; lia|].
    destruct i as [|i]; simpl; [reflexivity|].
    apply IH; simpl in *; lia.
Qed.

Lemma nth_map_seq :
  forall (A : Type) (g : nat -> A) (f i : nat) (d : A),
    (i < f)%nat -> nth i (map g (seq 0 f)) d = g i.
Proof.
  intros A g f i d Hi.
  rewrite (nth_indep _ d (g 0%nat)) by (rewrite length_map, length_seq; lia).
  rewrite map_nth. rewrite seq_nth by lia. reflexivity.
Qed.

Section AugmentProperties.

Variable CLASS : nat.
Variable within_box3d : tensor 1 -> tensor 1 -> bool.

Lemma augment_as_map :
  forall (point_clouds bounding_boxes : tensor 3) (t : Transformation),
    augment_point_clouds_bounding_boxes CLASS within_box3d
      point_clouds bounding_boxes t
    = (let body :=
         augment_frame CLASS point_clouds bounding_boxes
           (OBJECT_POINT_CLOUDS t) (OBJECT_BOUNDING_BOXES t)
           (is_within_any_box3d within_box3d
              (map (map (firstn 3)) point_clouds)
              (map (map (firstn 7)) (OBJECT_BOUNDING_BOXES t))) in
       (to_tensor (get_shape point_clouds)
          (map (fun i => fst (body i)) (seq 0 (length point_clouds))),
        to_tensor (get_shape bounding_boxes)
          (map (fun i => snd (body i)) (seq 0 (length point_clouds))))).
Proof.
  intros point_clouds bounding_boxes t.
  unfold augment_point_clouds_bounding_boxes, ragged_stack.
  rewrite loop_accumulates. reflexivity.
Qed.

Lemma augment_frame_points :
  forall (point_clouds bounding_boxes : tensor 3) (t : Transformation)
         (i : nat),
    (i < length point_clouds)%nat ->
    (i < length (OBJECT_BOUNDING_BOXES t))%nat ->
    fst (augment_frame CLASS point_clouds bounding_boxes
           (OBJECT_POINT_CLOUDS t) (OBJECT_BOUNDING_BOXES t)
           (is_within_any_box3d within_box3d
              (map (map (firstn 3)) point_clouds)
              (map (map (firstn 7)) (OBJECT_BOUNDING_BOXES t))) i)
    = spec_paste_points t i
      ++ spec_existing_points within_box3d point_clouds t i.
Proof.
  intros point_clouds bounding_boxes t i Hi Hb.
  unfold augment_frame, spec_paste_points, spec_existing_points. simpl.
  f_equal.
  - rewrite <- concat_map. apply boolean_mask_map_filter.
  - unfold is_within_any_box3d.
    rewrite (map2_nth _ _ _ _ _ _ _ [] [] []) by (rewrite length_map; assumption).
    rewrite (nth_indep (map (map (firstn 3)) point_clouds) []
                       (map (firstn 3) []))
      by (rewrite length_map; assumption).
    rewrite (nth_indep (map (map (firstn 7)) (OBJECT_BOUNDING_BOXES t)) []
                       (map (firstn 7) []))
      by (rewrite length_map; assumption).
    rewrite !map_nth. rewrite map_map.
    rewrite map2_map_same.
    rewrite boolean_mask_map_filter. reflexivity.
Qed.

Lemma augment_frame_boxes :
  forall (point_clouds bounding_boxes : tensor 3) (t : Transformation)
         (inside : list (list bool)) (i : nat),
    snd (augment_frame CLASS point_clouds bounding_boxes
           (OBJECT_POINT_CLOUDS t) (OBJECT_BOUNDING_BOXES t) inside i)
    = spec_paste_boxes CLASS t i ++ spec_existing_boxes CLASS bounding_boxes i.
Proof.
  intros point_clouds bounding_boxes t inside i.
  unfold augment_frame, spec_paste_boxes, spec_existing_boxes. simpl.
  rewrite !boolean_mask_map_filter. reflexivity.
Qed.

Lemma pad_rows :
  forall (n d : nat) (rows : tensor 2),
    Forall (fun row : tensor 1 => length row = d) rows ->
    pad_to n (repeat 0 (if (n =? 0)%nat then 0%nat else d))
      (map (pad_to (if (n =? 0)%nat then 0%nat else d) 0) rows)
    = firstn n rows ++ repeat (repeat 0 d) (n - length rows).
Proof.
  intros n d rows Hrows. destruct n as [|n]; [reflexivity|].
  simpl Nat.eqb. cbv iota.
  rewrite (map_pad_to_rows _ _ Hrows). reflexivity.
Qed.

(** C2, as amended: in every frame the output point cloud is the list made
    of the pasted object points with a positive class feature followed by
    the input points that lie outside every pasted box and have a positive
    class feature, cut to the [n] rows of the input frame and filled with
    zero rows up to [n]. *)
Theorem augment_point_clouds_frame :
  forall (point_clouds bounding_boxes : tensor 3) (t : Transformation)
         (f n d k p e i : nat),
    has_shape3 f n d point_clouds = true ->
    has_shape4 f k p d (OBJECT_POINT_CLOUDS t) = true ->
    has_shape3 f k e (OBJECT_BOUNDING_BOXES t) = true ->
    (i < f)%nat ->
    let rows :=
      spec_paste_points t i
      ++ spec_existing_points within_box3d point_clouds t i in
    nth i (fst (augment_point_clouds_bounding_boxes CLASS within_box3d
                  point_clouds bounding_boxes t)) []
    = firstn n rows ++ repeat (repeat 0 d) (n - length rows).
Proof.
  intros point_clouds bounding_boxes t f n d k p e i Hpc Hopc Hobb Hi rows.
  rewrite augment_as_map. cbv zeta. cbn [fst].
  rewrite (get_shape_of_shape _ _ _ _ Hpc) by lia.
  pose proof (proj1 (has_shape3_spec _ _ _ _) Hpc) as [Hlen _].
  pose proof (proj1 (has_shape3_spec _ _ _ _) Hobb) as [Hlenb _].
  rewrite to_tensor_nth by (rewrite ?length_map, ?length_seq; lia).
  rewrite (nth_indep _ [] (fst (augment_frame CLASS point_clouds
     bounding_boxes (OBJECT_POINT_CLOUDS t) (OBJECT_BOUNDING_BOXES t)
     (is_within_any_box3d within_box3d
        (map (map (firstn 3)) point_clouds)
        (map (map (firstn 7)) (OBJECT_BOUNDING_BOXES t))) 0%nat)))
    by (rewrite length_map, length_seq; lia).
  rewrite (map_nth (fun j => fst (augment_frame CLASS point_clouds
     bounding_boxes (OBJECT_POINT_CLOUDS t) (OBJECT_BOUNDING_BOXES t)
     (is_within_any_box3d within_box3d
        (map (map (firstn 3)) point_clouds)
        (map (map (firstn 7)) (OBJECT_BOUNDING_BOXES t))) j))).
  rewrite seq_nth by lia. simpl Nat.add.
  rewrite augment_frame_points by lia.
  fold rows. apply pad_rows.
  unfold rows. apply Forall_app. split.
  - apply Forall_forall. intros row Hrow.
    unfold spec_paste_points in Hrow. apply filter_In in Hrow.
    destruct Hrow as [Hrow _]. apply in_concat in Hrow.
    destruct Hrow as [object [Hobject Hrow]].
    apply has_shape4_spec in Hopc. destruct Hopc as [Hlen4 Hall4].
    rewrite Forall_forall in Hall4.
    assert (Hframe : has_shape3 k p d
                       (nth i (OBJECT_POINT_CLOUDS t) []) = true).
    { apply Hall4. apply nth_In. lia. }
    apply has_shape3_spec in Hframe. destruct Hframe as [_ Hobjects].
    rewrite Forall_forall in Hobjects.
    destruct (Hobjects object Hobject) as [_ Hrows].
    rewrite Forall_forall in Hrows. auto.
  - apply Forall_forall. intros row Hrow.
    unfold spec_existing_points in Hrow. apply filter_In in Hrow.
    destruct Hrow as [Hrow _].
    destruct (has_shape3_nth _ _ _ _ _ Hpc Hi) as [_ Hrows].
    rewrite Forall_forall in Hrows. auto.
Qed.

(** C3, as amended: in every frame the output boxes are the list made of
    the pasted boxes with a positive class feature followed by the input
    boxes with a positive class feature, cut to the [m] rows of the input
    frame and filled with zero rows up to [m]. *)
Theorem augment_bounding_boxes_frame :
  forall (point_clouds bounding_boxes : tensor 3) (t : Transformation)
         (f n d m e k i : nat),
    has_shape3 f n d point_clouds = true ->
    has_shape3 f m e bounding_boxes = true ->
    has_shape3 f k e (OBJECT_BOUNDING_BOXES t) = true ->
    (i < f)%nat ->
    let rows :=
      spec_paste_boxes CLASS t i
      ++ spec_existing_boxes CLASS bounding_boxes i in
    nth i (snd (augment_point_clouds_bounding_boxes CLASS within_box3d
                  point_clouds bounding_boxes t)) []
    = firstn m rows ++ repeat (repeat 0 e) (m - length rows).
Proof.
  intros point_clouds bounding_boxes t f n d m e k i Hpc Hbb Hobb Hi rows.
  rewrite augment_as_map. cbv zeta. cbn [snd].
  rewrite (get_shape_of_shape _ _ _ _ Hbb) by lia.
  pose proof (proj1 (has_shape3_spec _ _ _ _) Hpc) as [Hlen _].
  rewrite to_tensor_nth by (rewrite ?length_map, ?length_seq; lia).
  rewrite Hlen. rewrite nth_map_seq by exact Hi.
  rewrite augment_frame_boxes.
  fold rows. apply pad_rows.
  unfold rows. apply Forall_app. split.
  - apply Forall_forall. intros row Hrow.
    unfold spec_paste_boxes in Hrow. apply filter_In in Hrow.
    destruct Hrow as [Hrow _].
    destruct (has_shape3_nth _ _ _ _ _ Hobb Hi) as [_ Hrows].
    rewrite Forall_forall in Hrows. auto.
  - apply Forall_forall. intros row Hrow.
    unfold spec_existing_boxes in Hrow. apply filter_In in Hrow.
    destruct Hrow as [Hrow _].
    destruct (has_shape3_nth _ _ _ _ _ Hbb Hi) as [_ Hrows].
    rewrite Forall_forall in Hrows. auto.
Qed.

(** C4: whatever was pasted, the two tensors rebuilt from the per-frame
    lists are dense tensors of the shapes of the two inputs, and
    [get_shape] reads the input shapes on them. *)
Theorem augment_preserves_shapes :
  forall (point_clouds bounding_boxes : tensor 3) (t : Transformation)
         (f n d m e : nat),
    has_shape3 f n d point_clouds = true ->
    has_shape3 f m e bounding_boxes = true ->
    (0 < f)%nat ->
    let out :=
      augment_point_clouds_bounding_boxes CLASS within_box3d
        point_clouds bounding_boxes t in
    has_shape3 f n d (fst out) = true
    /\ has_shape3 f m e (snd out) = true
    /\ get_shape (fst out) = get_shape point_clouds
    /\ get_shape (snd out) = get_shape bounding_boxes.
Proof.
  intros point_clouds bounding_boxes t f n d m e Hpc Hbb Hf out.
  unfold out. rewrite augment_as_map. cbv zeta. cbn [fst snd].
  rewrite (get_shape_of_shape _ _ _ _ Hpc) by exact Hf.
  rewrite (get_shape_of_shape _ _ _ _ Hbb) by exact Hf.
  assert (Hshape :
            forall (a c : nat) (rt : list (list (list Q))),
              has_shape3 f a c
                (to_tensor (f, a, if (a =? 0)%nat then 0%nat else c) rt)
              = true).
  { intros a c rt. destruct a as [|a].
    - apply (has_shape3_no_rows f 0 c). apply to_tensor_has_shape.
    - apply to_tensor_has_shape. }
  repeat split.
  - apply Hshape.
  - apply Hshape.
  - rewrite (get_shape_of_shape _ _ _ _ (Hshape n d _)) by exact Hf.
    reflexivity.
  - rewrite (get_shape_of_shape _ _ _ _ (Hshape m e _)) by exact Hf.
    reflexivity.
Qed.

End AugmentProperties.

(** ** Rounding to float32 *)

Lemma round_half_even_le :
  forall (q : Q) (n : Z), q <= inject_Z n -> (round_half_even q <= n)%Z.
Proof.
  intros q n H. unfold round_half_even.
  pose proof (Qfloor_le q) as Hf.
  assert (Hfn : (Qfloor q <= n)%Z).
  { rewrite <- (Qfloor_Z n). apply Qfloor_resp_le. exact H. }
  destruct (Z.eq_dec (Qfloor q) n) as [E|E].
  - assert (Hlt : q - inject_Z (Qfloor q) < 1 # 2).
    { rewrite E. lra. }
    rewrite Qlt_alt in Hlt. rewrite Hlt. lia.
  - destruct (Qcompare _ _); [destruct (Z.even _)| |]; lia.
Qed.

Lemma round_half_even_ge :
  forall (q : Q) (n : Z), inject_Z n <= q -> (n <= round_half_even q)%Z.
Proof.
  intros q n H. unfold round_half_even.
  assert (Hfn : (n <= Qfloor q)%Z).
  { rewrite <- (Qfloor_Z n). apply Qfloor_resp_le. exact H. }
  destruct (Qcompare _ _); [destruct (Z.even _)| |]; lia.
Qed.

Lemma round_half_even_above_half :
  forall (q : Q) (n : Z),
    inject_Z n + (1 # 2) < q -> (n + 1 <= round_half_even q)%Z.
Proof.
  intros q n H. unfold round_half_even.
  assert (Hfn : (n <= Qfloor q)%Z).
  { rewrite <- (Qfloor_Z n). apply Qfloor_resp_le. lra. }
  destruct (Z.eq_dec (Qfloor q) n) as [E|E].
  - assert (Hgt : 1 # 2 < q - inject_Z (Qfloor q)).
    { rewrite E. lra. }
    apply Qgt_alt in Hgt. rewrite Hgt. lia.
  - destruct (Qcompare _ _); [destruct (Z.even _)| |]; lia.
Qed.

Lemma exponent_from_found :
  forall (fuel : nat) (e : Z) (x : Q),
    exponent_from fuel e x = (e - Z.of_nat fuel)%Z
    \/ 2 ^ exponent_from fuel e x <= x.
Proof.
  induction fuel as [|fuel IH]; intros e x.
  - left. simpl. lia.
  - cbn [exponent_from].
    destruct (Qle_bool (2 ^ e) x) eqn:E.
    + right. apply Qle_bool_iff. exact E.
    + destruct (IH (e - 1)%Z x) as [H|H]; [left; lia | right; exact H].
Qed.

Lemma exponent_from_ge :
  forall (fuel : nat) (e z : Z) (x : Q),
    (z <= e)%Z -> 2 ^ z <= x -> (z <= exponent_from fuel e x)%Z.
Proof.
  induction fuel as [|fuel IH]; intros e z x Hz Hx.
  - exact Hz.
  - cbn [exponent_from].
    destruct (Qle_bool (2 ^ e) x) eqn:E; [exact Hz|].
    apply IH; [|exact Hx].
    destruct (Z.eq_dec z e) as [->|Hne]; [|lia].
    apply Qle_bool_iff in Hx. congruence.
Qed.

Lemma float32_exponent_le_0 :
  forall x : Q, x <= 1 -> (float32_exponent x <= 0)%Z.
Proof.
  intros x Hx. unfold float32_exponent.
  destruct (exponent_from_found 253 127 x) as [H|H].
  - rewrite H. lia.
  - apply (Qpower_le_compat_l_inv 2); [|reflexivity].
    rewrite Qpower_0_r. lra.
Qed.

Lemma float32_exponent_ge_0 :
  forall x : Q,
    1 <= x -> (0 <= float32_exponent x)%Z /\ 2 ^ float32_exponent x <= x.
Proof.
  intros x Hx.
  assert (H0 : (0 <= float32_exponent x)%Z).
  { unfold float32_exponent. apply exponent_from_ge; [lia|].
    rewrite Qpower_0_r. exact Hx. }
  split; [exact H0|].
  unfold float32_exponent in *.
  destruct (exponent_from_found 253 127 x) as [H|H]; [|exact H].
  rewrite H in H0. lia.
Qed.

Lemma two_neq_0 : ~ 2 == 0.
Proof. intros H. discriminate H. Qed.

Lemma pow2_pos : forall z : Z, 0 < 2 ^ z.
Proof. intros z. apply Qpower_0_lt. reflexivity. Qed.

(** At or below [1] the grid of the float32 numbers divides [1]. *)
Lemma ulp_divides_1 :
  forall e : Z,
    (e <= 0)%Z -> inject_Z (2 ^ (23 - e)) * 2 ^ (e - 23) == 1.
Proof.
  intros e He. rewrite Zpower_Qpower by lia.
  change (inject_Z 2) with 2.
  rewrite <- Qpower_plus by exact two_neq_0.
  replace (23 - e + (e - 23))%Z with 0%Z by lia. reflexivity.
Qed.

Lemma float32_nonneg_of_neg :
  forall x : Q, Qle_bool 0 x = false -> float32 x <= 0.
Proof.
  intros x H. unfold float32. rewrite H.
  set (a := Qabs x). set (u := 2 ^ (float32_exponent a - 23)).
  assert (Hu : 0 < u) by apply pow2_pos.
  assert (Hm : (0 <= round_half_even (a / u))%Z).
  { apply round_half_even_ge. change (inject_Z 0) with 0.
    apply Qle_shift_div_l; [exact Hu|].
    rewrite Qmult_0_l. apply Qabs_nonneg. }
  assert (Hq : 0 <= inject_Z (round_half_even (a / u))).
  { change 0 with (inject_Z 0). rewrite <- Zle_Qle. exact Hm. }
  assert (0 <= inject_Z (round_half_even (a / u)) * u).
  { apply Qmult_le_0_compat; [exact Hq | lra]. }
  lra.
Qed.

(** Rounding does not carry a sum over [1]. *)
Lemma float32_le_1 : forall x : Q, x <= 1 -> float32 x <= 1.
Proof.
  intros x Hx. destruct (Qle_bool 0 x) eqn:E.
  2:{ pose proof (float32_nonneg_of_neg x E). lra. }
  apply Qle_bool_iff in E. unfold float32.
  assert (E' : Qle_bool 0 x = true) by (apply Qle_bool_iff; exact E).
  rewrite E'.
  assert (Ha : Qabs x <= 1) by (rewrite Qabs_pos; assumption).
  set (a := Qabs x) in *.
  pose proof (float32_exponent_le_0 a Ha) as He.
  set (e := float32_exponent a) in *.
  pose proof (pow2_pos (e - 23)) as Hu.
  pose proof (ulp_divides_1 e He) as H1.
  set (u := 2 ^ (e - 23)) in *.
  assert (Hm : (round_half_even (a / u) <= 2 ^ (23 - e))%Z).
  { apply round_half_even_le. apply Qle_shift_div_r; [exact Hu|].
    rewrite H1. exact Ha. }
  rewrite Zle_Qle in Hm.
  rewrite <- H1. apply Qmult_le_compat_r; [exact Hm | lra].
Qed.

(** A sum rounded to at most [1] exceeds [1] by at most half the distance
    to the next float32 number. *)
Lemma float32_le_1_inv :
  forall x : Q, float32 x <= 1 -> x <= 1 + (1 # 16777216).
Proof.
  intros x H. apply Qnot_lt_le. intros Hx.
  assert (E : Qle_bool 0 x = true) by (apply Qle_bool_iff; lra).
  unfold float32 in H. rewrite E in H.
  assert (Ea : Qabs x == x) by (apply Qabs_pos; lra).
  assert (Ha : 1 + (1 # 16777216) < Qabs x) by (rewrite Ea; exact Hx).
  clear Ea.
  set (a := Qabs x) in *.
  destruct (float32_exponent_ge_0 a) as [He Hpow]; [lra|].
  set (e := float32_exponent a) in *.
  pose proof (pow2_pos (e - 23)) as Hu.
  destruct (Z.eq_dec e 0) as [E0|E0].
  - rewrite E0 in *.
    assert (Eu : 2 ^ (0 - 23) == 1 # 8388608) by reflexivity.
    set (u := 2 ^ (0 - 23)) in *.
    assert (Hm : (8388608 + 1 <= round_half_even (a / u))%Z).
    { apply round_half_even_above_half.
      apply Qlt_shift_div_l; [exact Hu|]. rewrite Eu.
      change (inject_Z 8388608) with 8388608. lra. }
    rewrite Zle_Qle in Hm.
    assert (Hr : inject_Z (8388608 + 1) * u
                 <= inject_Z (round_half_even (a / u)) * u).
    { apply Qmult_le_compat_r; [exact Hm | lra]. }
    rewrite Eu in Hr at 1.
    change (inject_Z (8388608 + 1)) with 8388609 in Hr. lra.
  - assert (Hm : (2 ^ 23 <= round_half_even (a / 2 ^ (e - 23)))%Z).
    { apply round_half_even_ge. apply Qle_shift_div_l; [exact Hu|].
      rewrite Zpower_Qpower by lia. change (inject_Z 2) with 2.
      rewrite <- Qpower_plus by exact two_neq_0.
      replace (23 + (e - 23))%Z with e by lia. exact Hpow. }
    rewrite Zle_Qle in Hm.
    assert (Hr : inject_Z (2 ^ 23) * 2 ^ (e - 23)
                 <= inject_Z (round_half_even (a / 2 ^ (e - 23)))
                    * 2 ^ (e - 23)).
    { apply Qmult_le_compat_r; [exact Hm | lra]. }
    rewrite Zpower_Qpower in Hr by lia. change (inject_Z 2) with 2 in Hr.
    rewrite <- Qpower_plus in Hr by exact two_neq_0.
    replace (23 + (e - 23))%Z with e in Hr by lia.
    assert (H2 : 2 ^ 1 <= 2 ^ e).
    { apply Qpower_le_compat_l; [lia | lra]. }
    rewrite Qpower_1_r in H2. lra.
Qed.

(** ** Sums of IoU rows *)

Lemma Qsum_app :
  forall l1 l2 : list Q, Qsum (l1 ++ l2) == Qsum l1 + Qsum l2.
Proof.
  intros l1 l2. induction l1 as [|x l1 IH]; simpl.
  - lra.
  - rewrite IH. lra.
Qed.

Lemma Qsum_nonneg :
  forall l : list Q, Forall (fun x => 0 <= x) l -> 0 <= Qsum l.
Proof.
  intros l H. induction H as [|x l Hx _ IH]; simpl; lra.
Qed.

Lemma Qsum_In_le :
  forall (l : list Q) (x : Q),
    Forall (fun y => 0 <= y) l -> In x l -> x <= Qsum l.
Proof.
  intros l x H. induction H as [|y l Hy Hl IH]; intros Hin; [contradiction|].
  pose proof (Qsum_nonneg l Hl) as Hpos. simpl.
  destruct Hin as [-> | Hin]; [lra|].
  specialize (IH Hin). lra.
Qed.

Lemma in_band_lower :
  forall m n : nat, in_band (-1) 0 m n = (n <=? m)%nat.
Proof.
  intros m n. unfold in_band. simpl.
  destruct (Nat.leb_spec n m) as [H|H].
  - apply Z.leb_le. lia.
  - apply Z.leb_gt. lia.
Qed.

Lemma mapi_from_nth_error :
  forall (A B : Type) (f : nat -> A -> B) (l : list A) (k i : nat),
    nth_error (mapi_from f k l) i = option_map (f (k + i)%nat) (nth_error l i).
Proof.
  intros A B f l. induction l as [|x l IH]; intros k i.
  - destruct i; reflexivity.
  - destruct i as [|i]; simpl.
    + rewrite Nat.add_0_r. reflexivity.
    + rewrite IH. replace (S k + i)%nat with (k + S i)%nat by lia.
      reflexivity.
Qed.

Lemma Qsum_lower_row :
  forall (m : nat) (row : list Q) (k : nat),
    Qsum (mapi_from (fun n x => if in_band (-1) 0 m n then x else 0) k row)
    == Qsum (firstn (S m - k) row).
Proof.
  intros m row. induction row as [|x row IH]; intros k.
  - simpl. rewrite firstn_nil. reflexivity.
  - simpl mapi_from. simpl Qsum at 1. rewrite IH. rewrite in_band_lower.
    destruct (Nat.leb_spec k m) as [H|H].
    + replace (S m - k)%nat with (S (S m - S k))%nat by lia.
      simpl. reflexivity.
    + replace (S m - k)%nat with 0%nat by lia.
      replace (S m - S k)%nat with 0%nat by lia.
      simpl. lra.
Qed.

Lemma firstn_S_nth_error :
  forall (A : Type) (l : list A) (n : nat) (a : A),
    nth_error l n = Some a -> firstn (S n) l = firstn n l ++ [a].
Proof.
  intros A l. induction l as [|x l IH]; intros n a H.
  - destruct n; discriminate.
  - destruct n as [|n]; simpl in *.
    + injection H as ->. reflexivity.
    + rewrite (IH n a H). reflexivity.
Qed.

Lemma nth_error_In_firstn :
  forall (A : Type) (l : list A) (n j : nat) (b : A),
    (j < n)%nat -> nth_error l j = Some b -> In b (firstn n l).
Proof.
  intros A l n j b Hj H. apply nth_error_In with (n := j).
  rewrite nth_error_firstn.
  destruct (Nat.ltb_spec j n); [exact H | lia].
Qed.

(** ** Sublists selected by a mask *)

Lemma boolean_mask_In_nth_error :
  forall (A : Type) (l : list A) (mask : list bool) (x : A),
    In x (boolean_mask l mask) ->
    exists i, nth_error l i = Some x /\ nth_error mask i = Some true.
Proof.
  intros A l. induction l as [|y l IH]; intros mask x H; [contradiction|].
  destruct mask as [|b mask]; [contradiction|].
  rewrite boolean_mask_cons in H.
  assert (Htail : In x (boolean_mask l mask) ->
                  exists i, nth_error (y :: l) i = Some x
                            /\ nth_error (b :: mask) i = Some true).
  { intros Hin. destruct (IH mask x Hin) as [i [Hl Hm]].
    exists (S i). auto. }
  destruct b; [|auto].
  destruct H as [<- | H]; [|auto].
  exists 0%nat. auto.
Qed.

Lemma boolean_mask_Forall :
  forall (A : Type) (P : A -> Prop) (l : list A) (mask : list bool),
    (forall i x, nth_error l i = Some x -> nth_error mask i = Some true ->
                 P x) ->
    Forall P (boolean_mask l mask).
Proof.
  intros A P l mask H. apply Forall_forall. intros x Hx.
  destruct (boolean_mask_In_nth_error _ l mask x Hx) as [i [Hl Hm]].
  eauto.
Qed.

Lemma boolean_mask_ForallOrdPairs :
  forall (A : Type) (R : A -> A -> Prop) (l : list A) (mask : list bool),
    (forall i j x y,
        (i < j)%nat -> nth_error l i = Some x -> nth_error l j = Some y ->
        nth_error mask j = Some true -> R x y) ->
    ForallOrdPairs R (boolean_mask l mask).
Proof.
  intros A R l. induction l as [|x l IH]; intros mask H; [constructor|].
  destruct mask as [|b mask]; [constructor|].
  rewrite boolean_mask_cons.
  assert (Htail : ForallOrdPairs R (boolean_mask l mask)).
  { apply IH. intros i j a c Hij Ha Hc Hm.
    apply (H (S i) (S j) a c); auto. lia. }
  destruct b; [|exact Htail].
  constructor; [|exact Htail].
  apply Forall_forall. intros y Hy.
  destruct (boolean_mask_In_nth_error _ l mask y Hy) as [j [Hl Hm]].
  apply (H 0%nat (S j) x y); auto. lia.
Qed.

Lemma firstn_ForallOrdPairs :
  forall (A : Type) (R : A -> A -> Prop) (n : nat) (l : list A),
    ForallOrdPairs R l -> ForallOrdPairs R (firstn n l).
Proof.
  intros A R n. induction n as [|n IH]; intros l H; [constructor|].
  destruct H as [|x l Hx Hl]; simpl; [constructor|].
  constructor; [|auto].
  apply Forall_forall. intros y Hy. apply In_firstn in Hy.
  rewrite Forall_forall in Hx. auto.
Qed.

Lemma firstn_Forall :
  forall (A : Type) (P : A -> Prop) (n : nat) (l : list A),
    Forall P l -> Forall P (firstn n l).
Proof.
  intros A P n l H. apply Forall_forall. intros x Hx.
  apply In_firstn in Hx. rewrite Forall_forall in H. auto.
Qed.

Lemma hd_map2_app :
  forall (A : Type) (a b : list (list A)),
    hd [] (concat_axis1 a b)
    = match a, b with
      | x :: _, y :: _ => x ++ y
      | _, _ => []
      end.
Proof.
  intros A a b. destruct a as [|x a]; [reflexivity|].
  destruct b as [|y b]; reflexivity.
Qed.

(** ** The overlap test *)

Section OverlapCheck.

Variable iou : tensor 1 -> tensor 1 -> Q.

Hypothesis iou_nonneg : forall a b, 0 <= iou a b.
Hypothesis iou_self : forall a, iou a a == 1 \/ forall b, iou a b == 0.

Lemma overlap_mask_true :
  forall (all : list (list Q)) (num_existing i : nat),
    nth_error
      (map (fun s => Qle_bool s 1)
           (reduce_sum_axis1
              (skipn num_existing
                     (band_part (iou_3d iou all all) (-1) 0)))) i
    = Some true ->
    exists a,
      nth_error all (num_existing + i) = Some a
      /\ forall j b, (j < num_existing + i)%nat ->
                     nth_error all j = Some b ->
                     iou a b <= 1 # 16777216.
Proof.
  intros all num_existing i H.
  unfold reduce_sum_axis1 in H.
  rewrite map_map in H. rewrite nth_error_map in H.
  rewrite nth_error_skipn in H.
  unfold band_part in H. rewrite mapi_from_nth_error in H.
  unfold iou_3d in H. rewrite nth_error_map in H.
  simpl in H.
  destruct (nth_error all (num_existing + i)) as [a|] eqn:Ha;
    [|discriminate].
  simpl in H. injection H as H. apply Qle_bool_iff in H.
  apply float32_le_1_inv in H.
  rewrite Qsum_lower_row in H. rewrite Nat.sub_0_r in H.
  rewrite firstn_map in H.
  rewrite (firstn_S_nth_error _ _ _ _ Ha) in H.
  rewrite map_app in H. rewrite Qsum_app in H. simpl in H.
  exists a. split; [reflexivity|].
  intros j b Hj Hb.
  destruct (iou_self a) as [Hone | Hnull].
  2:{ rewrite Hnull. discriminate. }
  assert (Hle : iou a b
                <= Qsum (map (iou a) (firstn (num_existing + i) all))).
  { apply Qsum_In_le.
    - apply Forall_forall. intros x Hx. apply in_map_iff in Hx.
      destruct Hx as [c [<- _]]. apply iou_nonneg.
    - apply in_map. apply nth_error_In_firstn with (j := j); assumption. }
  change (tensor 1) with (list Q) in *. lra.
Qed.

Lemma nth_error_all_existing :
  forall (existing candidates : list (list Q)) (j : nat) (e : list Q),
    nth_error existing j = Some e ->
    nth_error (map (firstn 7) (existing ++ candidates)) j
    = Some (firstn 7 e).
Proof.
  intros existing candidates j e H.
  rewrite nth_error_map. rewrite nth_error_app1.
  - rewrite H. reflexivity.
  - apply nth_error_Some. rewrite H. discriminate.
Qed.

Lemma nth_error_all_candidate :
  forall (existing candidates : list (list Q)) (i : nat) (c : list Q),
    nth_error candidates i = Some c ->
    nth_error (map (firstn 7) (existing ++ candidates))
              (length existing + i)
    = Some (firstn 7 c).
Proof.
  intros existing candidates i c H.
  rewrite nth_error_map. rewrite nth_error_app2 by lia.
  replace (length existing + i - length existing)%nat with i by lia.
  rewrite H. reflexivity.
Qed.

(** The boxes kept by the mask, read in the frame the mask was computed
    from, have an IoU of at most [2 ^ (-24)] with the existing boxes and
    with one another. *)
Lemma overlap_filter_sound :
  forall (bounding_boxes object_bounding_boxes : list (list (list Q)))
         (n : Z),
    let all :=
      map (firstn 7)
          (hd [] (concat_axis1 bounding_boxes object_bounding_boxes)) in
    let mask :=
      map (fun s => Qle_bool s 1)
          (reduce_sum_axis1
             (skipn (dim1 bounding_boxes)
                    (band_part (iou_3d iou all all) (-1) 0))) in
    let retained :=
      hd [] (slice_axis1 n
               (boolean_mask_axis1 object_bounding_boxes mask)) in
    Forall (fun r =>
              Forall (fun e =>
                        iou (firstn 7 r) (firstn 7 e) <= 1 # 16777216)
                     (hd [] bounding_boxes))
           retained
    /\ ForallOrdPairs
         (fun earlier later =>
            iou (firstn 7 later) (firstn 7 earlier) <= 1 # 16777216)
         retained.
Proof.
  intros bounding_boxes object_bounding_boxes n all mask retained.
  destruct object_bounding_boxes as [|candidates rest].
  { subst retained. simpl. split; constructor. }
  destruct bounding_boxes as [|existing others].
  { subst retained mask all. simpl.
    destruct (slice_to_firstn _ n (boolean_mask candidates [])) as [m ->].
    unfold boolean_mask. rewrite combine_nil. simpl.
    rewrite firstn_nil. split; constructor. }
  subst retained. simpl hd.
  destruct (slice_to_firstn _ n (boolean_mask candidates mask)) as [m ->].
  assert (Hmask :
            forall i c,
              nth_error candidates i = Some c ->
              nth_error mask i = Some true ->
              forall j b,
                (j < length existing + i)%nat ->
                nth_error (map (firstn 7) (existing ++ candidates)) j
                = Some b ->
                iou (firstn 7 c) b <= 1 # 16777216).
  { intros i c Hc Hm.
    subst mask all. rewrite hd_map2_app in Hm. unfold dim1 in Hm.
    simpl hd in Hm.
    destruct (overlap_mask_true _ _ _ Hm) as [a [Ha Hzero]].
    rewrite (nth_error_all_candidate existing candidates i c Hc) in Ha.
    injection Ha as <-. exact Hzero. }
  split.
  - apply firstn_Forall. apply boolean_mask_Forall.
    intros i c Hc Hm. apply Forall_forall. intros e He.
    apply In_nth_error in He. destruct He as [j Hj].
    apply (Hmask i c Hc Hm j).
    + assert (j < length existing)%nat
        by (apply nth_error_Some; rewrite Hj; discriminate).
      lia.
    + apply nth_error_all_existing. exact Hj.
  - apply firstn_ForallOrdPairs. apply boolean_mask_ForallOrdPairs.
    intros i j x y Hij Hx Hy Hm.
    apply (Hmask j y Hy Hm (length existing + i)%nat).
    + lia.
    + apply nth_error_all_candidate. exact Hx.
Qed.

End OverlapCheck.

(** ** The random transformation *)

Section TransformationProperties.

Variable CLASS : nat.
Variable iou : tensor 1 -> tensor 1 -> Q.

Hypothesis iou_nonneg : forall a b, 0 <= iou a b.
Hypothesis iou_self : forall a, iou a a == 1 \/ forall b, iou a b == 0.

(** C1, as amended: read in the first frame, every retained pasted box has
    an IoU of at most [2 ^ (-24)] with every box of the first frame of
    [bounding_boxes] and with every retained pasted box that precedes it,
    provided the IoU of two boxes is never negative and a box either has
    IoU [1] with itself or IoU [0] with every box.  The bound is not zero:
    an IoU that small is lost when its sum with [1] is rounded to float32.
    Nothing is checked in the later frames. *)
Theorem retained_first_frame_iou_bound :
  forall (self : RandomCopyPaste) (draw : Draw)
         (bounding_boxes : tensor 3) (object_point_clouds : tensor 4)
         (object_bounding_boxes : tensor 3),
    let retained :=
      hd [] (OBJECT_BOUNDING_BOXES
               (get_random_transformation CLASS iou self draw
                  bounding_boxes object_point_clouds
                  object_bounding_boxes)) in
    Forall (fun r =>
              Forall (fun e =>
                        iou (firstn 7 r) (firstn 7 e) <= 1 # 16777216)
                     (hd [] bounding_boxes))
           retained
    /\ ForallOrdPairs
         (fun earlier later =>
            iou (firstn 7 later) (firstn 7 earlier) <= 1 # 16777216)
         retained.
Proof.
  intros self draw bounding_boxes object_point_clouds
         object_bounding_boxes retained.
  subst retained. unfold get_random_transformation.
  destruct (truthy (_label_index self)); cbn [OBJECT_BOUNDING_BOXES];
    apply (overlap_filter_sound iou iou_nonneg iou_self).
Qed.

End TransformationProperties.

(** ** Upright boxes satisfy the assumptions on the IoU *)

Lemma half_double : forall d : Q, d / 2 + d / 2 == d.
Proof. intros d. field. Qed.

(** [lra] does not read divisions: name the half widths first. *)
Ltac name_half d :=
  let E := fresh "E" in
  let h := fresh "h" in
  pose proof (half_double d) as E;
  set (h := d / 2) in *; clearbody h.

Lemma overlap_nonneg :
  forall c1 d1 c2 d2 : Q, 0 <= AxisAligned.overlap c1 d1 c2 d2.
Proof.
  intros c1 d1 c2 d2. unfold AxisAligned.overlap. apply Q.le_max_l.
Qed.

Lemma overlap_le_width :
  forall c1 d1 c2 d2 : Q,
    0 <= d1 -> AxisAligned.overlap c1 d1 c2 d2 <= d1.
Proof.
  intros c1 d1 c2 d2 Hd. unfold AxisAligned.overlap.
  apply Q.max_lub; [exact Hd|].
  pose proof (Q.le_min_l (c1 + d1 / 2) (c2 + d2 / 2)) as Hmin.
  pose proof (Q.le_max_l (c1 - d1 / 2) (c2 - d2 / 2)) as Hmax.
  name_half d1. name_half d2. lra.
Qed.

Lemma overlap_self :
  forall c d : Q, 0 <= d -> AxisAligned.overlap c d c d == d.
Proof.
  intros c d Hd.
  pose proof (overlap_le_width c d c d Hd) as Hle.
  assert (Hge : d <= AxisAligned.overlap c d c d).
  { unfold AxisAligned.overlap.
    eapply Qle_trans; [|apply Q.le_max_r].
    assert (Hmin : c + d / 2 <= Qmin (c + d / 2) (c + d / 2))
      by (apply Q.min_glb; apply Qle_refl).
    assert (Hmax : Qmax (c - d / 2) (c - d / 2) <= c - d / 2)
      by (apply Q.max_lub; apply Qle_refl).
    name_half d. lra. }
  lra.
Qed.

Lemma greater_zero :
  forall x : Q, greater x 0 = true <-> 0 < x.
Proof.
  intros x. unfold greater. rewrite negb_true_iff.
  split; intros H.
  - apply Qnot_le_lt. intros Hle. apply Qle_bool_iff in Hle. congruence.
  - destruct (Qle_bool x 0) eqn:E; [|reflexivity].
    apply Qle_bool_iff in E. lra.
Qed.

Lemma valid_spec :
  forall b : tensor 1,
    AxisAligned.valid b = true ->
    0 < feature 3 b /\ 0 < feature 4 b /\ 0 < feature 5 b.
Proof.
  intros b H. unfold AxisAligned.valid in H.
  rewrite !andb_true_iff in H. rewrite !greater_zero in H. tauto.
Qed.

Lemma product3_le :
  forall x1 x2 x3 y1 y2 y3 : Q,
    0 <= x1 <= y1 -> 0 <= x2 <= y2 -> 0 <= x3 <= y3 ->
    0 <= x1 * x2 * x3 <= y1 * y2 * y3.
Proof.
  intros x1 x2 x3 y1 y2 y3 [H1 H1'] [H2 H2'] [H3 H3'].
  assert (H12 : 0 <= x1 * x2 <= y1 * y2) by (split; nra).
  destruct H12 as [Ha Hb]. split; nra.
Qed.

Lemma intersection_bounds :
  forall a b : tensor 1,
    AxisAligned.valid a = true ->
    0 <= AxisAligned.intersection a b <= AxisAligned.volume a.
Proof.
  intros a b Ha. apply valid_spec in Ha. destruct Ha as [H3 [H4 H5]].
  unfold AxisAligned.intersection, AxisAligned.volume.
  apply product3_le; (split; [apply overlap_nonneg|]);
    apply overlap_le_width; lra.
Qed.

Lemma axis_aligned_iou_nonneg :
  forall a b : tensor 1, 0 <= AxisAligned.iou a b.
Proof.
  intros a b. unfold AxisAligned.iou.
  destruct (AxisAligned.valid a) eqn:Ha; simpl; [|lra].
  destruct (AxisAligned.valid b) eqn:Hb; [|lra].
  pose proof (intersection_bounds a b Ha) as [Hi Hv].
  apply valid_spec in Hb. destruct Hb as [H3 [H4 H5]].
  assert (Hvb : 0 < AxisAligned.volume b).
  { unfold AxisAligned.volume.
    assert (0 < feature 3 b * feature 4 b) by nra. nra. }
  apply Qle_shift_div_l; lra.
Qed.

Lemma axis_aligned_iou_self :
  forall a : tensor 1,
    AxisAligned.iou a a == 1 \/ forall b, AxisAligned.iou a b == 0.
Proof.
  intros a. destruct (AxisAligned.valid a) eqn:Ha.
  - left. unfold AxisAligned.iou. rewrite Ha. simpl.
    pose proof (valid_spec a Ha) as [H3 [H4 H5]].
    assert (Hi : AxisAligned.intersection a a == AxisAligned.volume a).
    { unfold AxisAligned.intersection, AxisAligned.volume.
      rewrite !overlap_self by lra. reflexivity. }
    assert (Hv : 0 < AxisAligned.volume a).
    { unfold AxisAligned.volume.
      assert (0 < feature 3 a * feature 4 a) by nra. nra. }
    rewrite Hi. field. lra.
  - right. intros b. unfold AxisAligned.iou. rewrite Ha. simpl. reflexivity.
Qed.

(** ** Counting the retained objects *)

Lemma init_Ok_inv :
  forall (label_index : option Z) (lo hi : Z) (self : RandomCopyPaste),
    __init__ label_index lo hi = Ok self ->
    _label_index self = label_index
    /\ _min_paste_bounding_boxes self = lo
    /\ _max_paste_bounding_boxes self = hi
    /\ (0 <= lo <= hi)%Z.
Proof.
  intros label_index lo hi self H. unfold __init__ in H.
  destruct (truthy label_index && label_negative label_index);
    [discriminate|].
  destruct (Z.ltb_spec lo 0); [discriminate|].
  destruct (Z.ltb_spec hi 0); [discriminate|].
  destruct (Z.ltb_spec hi lo); [discriminate|].
  injection H as <-. simpl. repeat split; lia.
Qed.

Lemma cast_int32_bounds :
  forall (lo hi : Z) (u : Q),
    (0 <= lo)%Z -> inject_Z lo <= u -> u <= inject_Z hi ->
    (0 <= cast_int32 u <= hi)%Z.
Proof.
  intros lo hi [a b] Hlo Hl Hh. unfold cast_int32, Qle in *. simpl in *.
  assert (Ha : (0 <= a)%Z) by nia.
  rewrite Z.quot_div_nonneg by lia. split.
  - apply Z.div_pos; lia.
  - apply Z.div_le_upper_bound; lia.
Qed.

Lemma boolean_mask_length_eq :
  forall (A B : Type) (l : list A) (l' : list B) (mask : list bool),
    length l = length l' ->
    length (boolean_mask l mask) = length (boolean_mask l' mask).
Proof.
  intros A B l. induction l as [|x l IH]; intros l' mask H.
  - destruct l'; [reflexivity | discriminate].
  - destruct l' as [|y l']; [discriminate|].
    destruct mask as [|b mask]; [reflexivity|].
    rewrite !boolean_mask_cons. injection H as H.
    specialize (IH l' mask H). destruct b; simpl; congruence.
Qed.

Lemma slice_to_length_eq :
  forall (A B : Type) (k : Z) (l : list A) (l' : list B),
    length l = length l' ->
    length (slice_to k l) = length (slice_to k l').
Proof.
  intros A B k l l' H. unfold slice_to. rewrite H.
  destruct (k <? 0)%Z; rewrite !length_firstn; lia.
Qed.

Lemma gather_length :
  forall (A : Type) (d : A) (l : list A) (indices : list nat),
    length (gather d l indices) = length indices.
Proof. intros A d l indices. apply length_map. Qed.

Lemma gather_In :
  forall (A : Type) (d : A) (l : list A) (indices : list nat) (x : A),
    Forall (fun i => (i < length l)%nat) indices ->
    In x (gather d l indices) -> In x l.
Proof.
  intros A d l indices x Hall Hx. unfold gather in Hx.
  apply in_map_iff in Hx. destruct Hx as [i [<- Hi]].
  rewrite Forall_forall in Hall. apply nth_In. auto.
Qed.

Lemma nth_map_default :
  forall (A B : Type) (g : A -> B) (l : list A) (i : nat) (d : A) (d' : B),
    (i < length l)%nat -> nth i (map g l) d' = g (nth i l d).
Proof.
  intros A B g l i d d' Hi.
  rewrite (nth_indep _ d' (g d)) by (rewrite length_map; exact Hi).
  apply map_nth.
Qed.

Lemma hd_map_nonempty :
  forall (A B : Type) (g : list A -> list B) (l : list (list A)),
    l <> [] -> hd [] (map g l) = g (hd [] l).
Proof.
  intros A B g l H. destruct l; [contradiction | reflexivity].
Qed.

Lemma shuffle_range :
  forall (draw : Draw) (n : nat),
    (forall l, Permutation (shuffle draw l) l) ->
    length (shuffle draw (seq 0 n)) = n
    /\ Forall (fun i => (i < n)%nat) (shuffle draw (seq 0 n)).
Proof.
  intros draw n H. specialize (H (seq 0 n)). split.
  - rewrite (Permutation_length H). apply length_seq.
  - apply Forall_forall. intros i Hi.
    apply (Permutation_in _ H) in Hi. apply in_seq in Hi. lia.
Qed.

Section CountProperties.

Variable CLASS : nat.
Variable iou : tensor 1 -> tensor 1 -> Q.

(** What the optional class filter leaves of the two object tensors. *)
Lemma class_filter_spec :
  forall (self : RandomCopyPaste)
         (object_point_clouds : tensor 4) (object_bounding_boxes : tensor 3)
         (f k p d e : nat),
    has_shape4 f k p d object_point_clouds = true ->
    has_shape3 f k e object_bounding_boxes = true ->
    (0 < f)%nat ->
    let filtered :=
      if truthy (_label_index self) then
        let object_mask :=
          map (fun box => Qeq_bool (feature CLASS box) (label_value self))
              (hd [] object_bounding_boxes) in
        (boolean_mask_axis1 object_point_clouds object_mask,
         boolean_mask_axis1 object_bounding_boxes object_mask)
      else (object_point_clouds, object_bounding_boxes) in
    length (fst filtered) = f
    /\ length (snd filtered) = f
    /\ dim1 (fst filtered)
       = candidates_after_filter CLASS self object_bounding_boxes
    /\ length (hd [] (snd filtered)) = dim1 (fst filtered)
    /\ (truthy (_label_index self) = true ->
        Forall (fun b => feature CLASS b == label_value self)
               (hd [] (snd filtered))).
Proof.
  intros self opc obb f k p d e Hopc Hobb Hf filtered.
  apply has_shape4_spec in Hopc. destruct Hopc as [Hlen4 Hall4].
  pose proof (has_shape3_nth _ _ _ _ 0%nat Hobb Hf) as [Hk3 _].
  apply has_shape3_spec in Hobb. destruct Hobb as [Hlen3 Hall3].
  destruct opc as [|frame4 opc]; [simpl in Hlen4; lia|].
  destruct obb as [|frame3 obb]; [simpl in Hlen3; lia|].
  pose proof (Forall_inv Hall4) as Hframe4. cbv beta in Hframe4.
  apply has_shape3_spec in Hframe4. destruct Hframe4 as [Hk4 _].
  simpl in Hk3.
  subst filtered. unfold candidates_after_filter.
  destruct (truthy (_label_index self)); cbn [fst snd].
  - unfold boolean_mask_axis1. rewrite !length_map.
    cbn [map hd dim1]. unfold dim1. cbn [hd map].
    rewrite boolean_mask_map_filter.
    assert (Hsame :
              length (boolean_mask frame4
                        (map (fun box =>
                                Qeq_bool (feature CLASS box)
                                         (label_value self)) frame3))
              = length (filter
                          (fun box =>
                             Qeq_bool (feature CLASS box)
                                      (label_value self)) frame3)).
    { rewrite <- (boolean_mask_map_filter _ _ frame3).
      apply boolean_mask_length_eq. congruence. }
    repeat split; auto.
    intros _. apply Forall_forall. intros b Hb.
    apply filter_In in Hb. destruct Hb as [_ Hb].
    apply Qeq_bool_iff. exact Hb.
  - unfold dim1. cbn [hd]. repeat split; auto; congruence.
Qed.


End CountProperties.

(** ** The transformation is dense *)

Lemma map_frames_shape3 :
  forall (G : tensor 2 -> tensor 2) (f k k1 e : nat) (t : tensor 3),
    (forall X x, length X = k -> In x (G X) -> In x X) ->
    (forall X, length X = k -> length (G X) = k1) ->
    has_shape3 f k e t = true ->
    has_shape3 f k1 e (map G t) = true.
Proof.
  intros G f k k1 e t Hin Hlen H.
  apply has_shape3_spec in H. destruct H as [Hf Hall].
  apply has_shape3_spec. split; [rewrite length_map; exact Hf|].
  apply Forall_forall. intros frame Hframe.
  apply in_map_iff in Hframe. destruct Hframe as [X [<- HX]].
  rewrite Forall_forall in Hall. destruct (Hall X HX) as [Hk Hrows].
  split; [apply Hlen; exact Hk|].
  apply Forall_forall. intros row Hrow.
  rewrite Forall_forall in Hrows. apply Hrows.
  apply (Hin X row Hk Hrow).
Qed.

Lemma map_frames_shape4 :
  forall (G : tensor 3 -> tensor 3) (f k k1 p d : nat) (t : tensor 4),
    (forall X x, length X = k -> In x (G X) -> In x X) ->
    (forall X, length X = k -> length (G X) = k1) ->
    has_shape4 f k p d t = true ->
    has_shape4 f k1 p d (map G t) = true.
Proof.
  intros G f k k1 p d t Hin Hlen H.
  apply has_shape4_spec in H. destruct H as [Hf Hall].
  apply has_shape4_spec. split; [rewrite length_map; exact Hf|].
  apply Forall_forall. intros frame Hframe.
  apply in_map_iff in Hframe. destruct Hframe as [X [<- HX]].
  rewrite Forall_forall in Hall. specialize (Hall X HX).
  apply has_shape3_spec in Hall. destruct Hall as [Hk Hobjects].
  apply has_shape3_spec. split; [apply Hlen; exact Hk|].
  apply Forall_forall. intros object Hobject.
  rewrite Forall_forall in Hobjects. apply Hobjects.
  apply (Hin X object Hk Hobject).
Qed.

Lemma boolean_mask_length_seq :
  forall (A : Type) (k : nat) (mask : list bool) (X : list A),
    length X = k ->
    length (boolean_mask X mask) = length (boolean_mask (seq 0 k) mask).
Proof.
  intros A k mask X H. apply boolean_mask_length_eq.
  rewrite length_seq. exact H.
Qed.

Lemma slice_to_length_seq :
  forall (A : Type) (k : nat) (n : Z) (X : list A),
    length X = k ->
    length (slice_to n X) = length (slice_to n (seq 0 k)).
Proof.
  intros A k n X H. apply slice_to_length_eq.
  rewrite length_seq. exact H.
Qed.

Section DenseTransformation.

Variable CLASS : nat.
Variable iou : tensor 1 -> tensor 1 -> Q.

(** X9: on a dense scene the transformation is dense: its two tensors have
    the frames of the inputs, a common number of objects, and the inner
    dimensions of the object tensors. *)
Lemma transformation_dense :
  forall (self : RandomCopyPaste) (draw : Draw) (bounding_boxes : tensor 3)
         (object_point_clouds : tensor 4) (object_bounding_boxes : tensor 3)
         (f k p d e : nat),
    (forall l, Permutation (shuffle draw l) l) ->
    has_shape4 f k p d object_point_clouds = true ->
    has_shape3 f k e object_bounding_boxes = true ->
    (0 < f)%nat ->
    let t :=
      get_random_transformation CLASS iou self draw bounding_boxes
        object_point_clouds object_bounding_boxes in
    exists k' : nat,
      has_shape4 f k' p d (OBJECT_POINT_CLOUDS t) = true
      /\ has_shape3 f k' e (OBJECT_BOUNDING_BOXES t) = true.
Proof.
  intros self draw bounding_boxes opc obb f k p d e Hperm Hopc Hobb Hf t.
  assert (Hfiltered :
            exists k1 opc1 obb1,
              (if truthy (_label_index self) then
                 (boolean_mask_axis1 opc
                    (map (fun box =>
                            Qeq_bool (feature CLASS box) (label_value self))
                         (hd [] obb)),
                  boolean_mask_axis1 obb
                    (map (fun box =>
                            Qeq_bool (feature CLASS box) (label_value self))
                         (hd [] obb)))
               else (opc, obb)) = (opc1, obb1)
              /\ has_shape4 f k1 p d opc1 = true
              /\ has_shape3 f k1 e obb1 = true).
  { destruct (truthy (_label_index self)).
    - eexists. eexists. eexists. split; [reflexivity|]. split.
      + apply (map_frames_shape4 _ f k _ p d opc);
          [intros X x _; apply boolean_mask_In
          |intros X; apply boolean_mask_length_seq
          |exact Hopc].
      + apply (map_frames_shape3 _ f k _ e obb);
          [intros X x _; apply boolean_mask_In
          |intros X; apply boolean_mask_length_seq
          |exact Hobb].
    - exists k, opc, obb. auto. }
  destruct Hfiltered as [k1 [opc1 [obb1 [E [Hopc1 Hobb1]]]]].
  subst t. unfold get_random_transformation. cbv zeta. rewrite E.
  cbn [OBJECT_POINT_CLOUDS OBJECT_BOUNDING_BOXES].
  match goal with
  | |- context [boolean_mask_axis1 _ ?m] => generalize m
  end.
  intros mask.
  match goal with
  | |- context [slice_axis1 (Z.min ?a ?b) _] => generalize (Z.min a b)
  end.
  intros num_compare.
  assert (Hk1 : dim1 opc1 = k1).
  { apply has_shape4_spec in Hopc1. destruct Hopc1 as [Hlen Hall].
    destruct opc1 as [|frame opc1]; [simpl in Hlen; lia|].
    pose proof (Forall_inv Hall) as Hframe. cbv beta in Hframe.
    apply has_shape3_spec in Hframe. unfold dim1. simpl. tauto. }
  destruct (shuffle_range draw (dim1 opc1) Hperm) as [Hplen Hpall].
  set (perm := shuffle draw (seq 0 (dim1 opc1))) in *. clearbody perm.
  rewrite Hk1 in Hpall.
  generalize (cast_int32 (uniform draw)). intros num_paste.
  unfold slice_axis1, boolean_mask_axis1, gather_axis1.
  eexists. split.
  - eapply map_frames_shape4;
      [intros X x _; apply slice_to_In
      |intros X; apply slice_to_length_seq|].
    eapply map_frames_shape4;
      [intros X x _; apply boolean_mask_In
      |intros X; apply boolean_mask_length_seq|].
    eapply map_frames_shape4;
      [intros X x _; apply slice_to_In
      |intros X; apply slice_to_length_seq|].
    eapply map_frames_shape4;
      [intros X x HX; apply gather_In; rewrite HX; exact Hpall
      |intros X _; apply gather_length
      |exact Hopc1].
  - eapply map_frames_shape3;
      [intros X x _; apply slice_to_In
      |intros X; apply slice_to_length_seq|].
    eapply map_frames_shape3;
      [intros X x _; apply boolean_mask_In
      |intros X; apply boolean_mask_length_seq|].
    eapply map_frames_shape3;
      [intros X x _; apply slice_to_In
      |intros X; apply slice_to_length_seq|].
    eapply map_frames_shape3;
      [intros X x HX; apply gather_In; rewrite HX; exact Hpall
      |intros X _; apply gather_length
      |exact Hobb1].
Qed.

End DenseTransformation.

(** ** The entry point *)

Section CallProperties.

Variable CLASS : nat.
Variable iou : tensor 1 -> tensor 1 -> Q.
Variable within_box3d : tensor 1 -> tensor 1 -> bool.

Lemma augment_batch_map :
  forall (self : RandomCopyPaste) (draws : nat -> Draw) (inputs : Inputs)
         (p b : tensor 4) (op : tensor 5) (ob : tensor 4)
         (indices : list nat),
    POINT_CLOUDS inputs = existT tensor 4%nat p ->
    BOUNDING_BOXES inputs = existT tensor 4%nat b ->
    INPUT_OBJECT_POINT_CLOUDS inputs = Some (existT tensor 5%nat op) ->
    INPUT_OBJECT_BOUNDING_BOXES inputs = Some (existT tensor 4%nat ob) ->
    length b = length p -> length op = length p ->
    length ob = length p ->
    Forall (fun i => (i < length p)%nat) indices ->
    augment_batch CLASS iou within_box3d self draws inputs indices
    = Ok (map (fun i =>
                 fst (_augment CLASS iou within_box3d self (draws i)
                        (nth i p []) (nth i b []) (nth i op [])
                        (nth i ob [])))
              indices,
          map (fun i =>
                 snd (_augment CLASS iou within_box3d self (draws i)
                        (nth i p []) (nth i b []) (nth i op [])
                        (nth i ob [])))
              indices).
Proof.
  intros self draws inputs p b op ob indices Hp Hb Hop Hob Lb Lop Lob Hall.
  induction Hall as [|i rest Hi _ IH]; [reflexivity|].
  cbn [augment_batch]. unfold no_batch_inputs.
  rewrite Hp, Hb, Hop, Hob. cbn [index lookup bind].
  rewrite (nth_error_nth' p [] Hi).
  rewrite (nth_error_nth' b []) by lia.
  rewrite (nth_error_nth' op []) by lia.
  rewrite (nth_error_nth' ob []) by lia.
  cbn [bind]. unfold _augment_dict.
  cbn [POINT_CLOUDS BOUNDING_BOXES INPUT_OBJECT_POINT_CLOUDS
       INPUT_OBJECT_BOUNDING_BOXES as_rank3 as_rank4 bind].
  rewrite IH. reflexivity.
Qed.


End CallProperties.

(** ** The layer on concrete scenes *)

Example layer_constructed : __init__ None 0 10 = Ok Scenes.layer.
Proof. reflexivity. Qed.

Example layer_class_1_constructed :
  __init__ (Some 1%Z) 0 10 = Ok Scenes.layer_class_1.
Proof. reflexivity. Qed.

(** Of the four parked candidates the second and the fourth are pasted. *)
Example parked_retained :
  get_random_transformation AxisAligned.CLASS AxisAligned.iou
    Scenes.layer (Scenes.draw (9 # 2))
    Scenes.street_boxes Scenes.parked_points Scenes.parked_boxes
  = {| OBJECT_POINT_CLOUDS :=
         [[[Scenes.point 10 1]; [Scenes.point 20 1]]];
       OBJECT_BOUNDING_BOXES := [[Scenes.box 10 1; Scenes.box 20 1]] |}.
Proof. vm_compute. reflexivity. Qed.

(** The background point under the pasted box and the unlabelled point are
    removed, and the frame is filled with a zero row. *)
Example sparse_augmented :
  _augment AxisAligned.CLASS AxisAligned.iou AxisAligned.within_box3d
    Scenes.layer (Scenes.draw 1)
    Scenes.sparse_point_clouds Scenes.sparse_boxes
    Scenes.pasted_points Scenes.far_boxes
  = ([[Scenes.point (51 # 5) 1; Scenes.point 0 1; [0; 0; 0; 0; 0]]],
     [[Scenes.box 10 1; Scenes.box 0 1]]).
Proof. vm_compute. reflexivity. Qed.

(** Upright boxes satisfy the two assumptions, and on the street scene the
    retained boxes stay within the bound, with the existing box and with
    each other. *)
Lemma retained_first_frame_iou_bound_witness :
  (forall a b, 0 <= AxisAligned.iou a b)
  /\ (forall a,
        AxisAligned.iou a a == 1 \/ forall b, AxisAligned.iou a b == 0)
  /\ (let retained :=
        hd [] (OBJECT_BOUNDING_BOXES
                 (get_random_transformation AxisAligned.CLASS AxisAligned.iou
                    Scenes.layer (Scenes.draw (9 # 2))
                    Scenes.street_boxes Scenes.parked_points
                    Scenes.parked_boxes)) in
      Forall (fun r =>
                Forall (fun e =>
                          AxisAligned.iou (firstn 7 r) (firstn 7 e)
                          <= 1 # 16777216)
                       (hd [] Scenes.street_boxes))
             retained
      /\ ForallOrdPairs
           (fun earlier later =>
              AxisAligned.iou (firstn 7 later) (firstn 7 earlier)
              <= 1 # 16777216)
           retained).
Proof.
  split; [exact axis_aligned_iou_nonneg|].
  split; [exact axis_aligned_iou_self|].
  apply (retained_first_frame_iou_bound
           AxisAligned.CLASS AxisAligned.iou
           axis_aligned_iou_nonneg axis_aligned_iou_self).
Defined.

(** The two cubes of the grazing scene overlap. *)
Example grazing_iou :
  AxisAligned.iou (firstn 7 (Grazing.cube (16777215 # 16777216)))
                  (firstn 7 (Grazing.cube 0))
  == 1 # 33554431.
Proof. vm_compute. reflexivity. Qed.

(** The grazing candidate is pasted: its IoU with the existing box and
    with itself add up to [1 + 1 / 33554431], which is rounded to [1]. *)
Example grazing_candidate_pasted :
  get_random_transformation AxisAligned.CLASS AxisAligned.iou
    Scenes.layer (Scenes.draw 1)
    Grazing.existing_boxes Grazing.candidate_points Grazing.candidate_boxes
  = {| OBJECT_POINT_CLOUDS := Grazing.candidate_points;
       OBJECT_BOUNDING_BOXES := Grazing.candidate_boxes |}.
Proof. vm_compute. reflexivity. Qed.

(** C1 fails twice.  Past the first frame: the candidate that stands clear
    in the first frame is retained, and its box in the second frame has IoU
    [1] with the box present in the first frame of the input.  In the first
    frame: the grazing candidate is retained, and its IoU with the existing
    box, [1 / 33554431], is not zero. *)
Lemma retained_boxes_overlap :
  ~ Forall
      (fun frame =>
         Forall (fun r =>
                   Forall (fun e =>
                             AxisAligned.iou (firstn 7 r) (firstn 7 e) == 0)
                          (hd [] Scenes.two_frame_boxes))
                frame)
      (OBJECT_BOUNDING_BOXES
         (get_random_transformation AxisAligned.CLASS AxisAligned.iou
            Scenes.layer (Scenes.draw 1)
            Scenes.two_frame_boxes Scenes.moving_points
            Scenes.moving_boxes))
  /\ ~ Forall
         (fun r =>
            Forall (fun e =>
                      AxisAligned.iou (firstn 7 r) (firstn 7 e) == 0)
                   (hd [] Grazing.existing_boxes))
         (hd [] (OBJECT_BOUNDING_BOXES
                   (get_random_transformation
                      AxisAligned.CLASS AxisAligned.iou
                      Scenes.layer (Scenes.draw 1)
                      Grazing.existing_boxes Grazing.candidate_points
                      Grazing.candidate_boxes))).
Proof.
  split.
  - intros H.
    assert (E : OBJECT_BOUNDING_BOXES
                  (get_random_transformation
                     AxisAligned.CLASS AxisAligned.iou
                     Scenes.layer (Scenes.draw 1)
                     Scenes.two_frame_boxes Scenes.moving_points
                     Scenes.moving_boxes)
                = Scenes.moving_boxes)
      by (vm_compute; reflexivity).
    rewrite E in H. unfold Scenes.moving_boxes in H.
    apply Forall_inv_tail in H. apply Forall_inv in H.
    apply Forall_inv in H. unfold Scenes.two_frame_boxes in H.
    simpl hd in H.
    apply Forall_inv in H. vm_compute in H. discriminate H.
  - intros H.
    assert (E : OBJECT_BOUNDING_BOXES
                  (get_random_transformation
                     AxisAligned.CLASS AxisAligned.iou
                     Scenes.layer (Scenes.draw 1)
                     Grazing.existing_boxes Grazing.candidate_points
                     Grazing.candidate_boxes)
                = Grazing.candidate_boxes)
      by (vm_compute; reflexivity).
    rewrite E in H. unfold Grazing.candidate_boxes in H.
    unfold Grazing.existing_boxes in H. simpl hd in H.
    apply Forall_inv in H. apply Forall_inv in H.
    vm_compute in H. discriminate H.
Qed.

(** C2 fails on a frame without padding: the three input points are
    labelled and outside the pasted box, one point is pasted, and the frame
    keeps its three rows, so the last input point is dropped. *)
Lemma full_frame_drops_a_point :
  ~ exists k : nat,
      nth 0
        (fst (augment_point_clouds_bounding_boxes
                AxisAligned.CLASS AxisAligned.within_box3d
                Scenes.full_point_clouds Scenes.full_boxes
                (get_random_transformation AxisAligned.CLASS AxisAligned.iou
                   Scenes.layer (Scenes.draw 1) Scenes.full_boxes
                   Scenes.far_points Scenes.far_boxes))) []
      = (spec_paste_points
           (get_random_transformation AxisAligned.CLASS AxisAligned.iou
              Scenes.layer (Scenes.draw 1) Scenes.full_boxes
              Scenes.far_points Scenes.far_boxes) 0
         ++ spec_existing_points AxisAligned.within_box3d
              Scenes.full_point_clouds
              (get_random_transformation AxisAligned.CLASS AxisAligned.iou
                 Scenes.layer (Scenes.draw 1) Scenes.full_boxes
                 Scenes.far_points Scenes.far_boxes) 0)
        ++ repeat (repeat 0 5) k.
Proof.
  intros [k H].
  assert (Eout :
            nth 0
              (fst (augment_point_clouds_bounding_boxes
                      AxisAligned.CLASS AxisAligned.within_box3d
                      Scenes.full_point_clouds Scenes.full_boxes
                      (get_random_transformation
                         AxisAligned.CLASS AxisAligned.iou
                         Scenes.layer (Scenes.draw 1) Scenes.full_boxes
                         Scenes.far_points Scenes.far_boxes))) []
            = [Scenes.point 10 1; Scenes.point 0 1; Scenes.point 5 1])
    by (vm_compute; reflexivity).
  assert (Erows :
            spec_paste_points
              (get_random_transformation AxisAligned.CLASS AxisAligned.iou
                 Scenes.layer (Scenes.draw 1) Scenes.full_boxes
                 Scenes.far_points Scenes.far_boxes) 0
            ++ spec_existing_points AxisAligned.within_box3d
                 Scenes.full_point_clouds
                 (get_random_transformation AxisAligned.CLASS AxisAligned.iou
                    Scenes.layer (Scenes.draw 1) Scenes.full_boxes
                    Scenes.far_points Scenes.far_boxes) 0
            = [Scenes.point 10 1; Scenes.point 0 1; Scenes.point 5 1;
               Scenes.point 7 1])
    by (vm_compute; reflexivity).
  rewrite Eout, Erows in H.
  apply (f_equal (@length (list Q))) in H.
  rewrite length_app in H. simpl in H. lia.
Qed.

(** C3 fails on the same frame: both input boxes are labelled, one box is
    pasted, and the frame keeps its two rows, so the second input box is
    dropped. *)
Lemma full_frame_drops_a_box :
  ~ exists k : nat,
      nth 0
        (snd (augment_point_clouds_bounding_boxes
                AxisAligned.CLASS AxisAligned.within_box3d
                Scenes.full_point_clouds Scenes.full_boxes
                (get_random_transformation AxisAligned.CLASS AxisAligned.iou
                   Scenes.layer (Scenes.draw 1) Scenes.full_boxes
                   Scenes.far_points Scenes.far_boxes))) []
      = (spec_paste_boxes AxisAligned.CLASS
           (get_random_transformation AxisAligned.CLASS AxisAligned.iou
              Scenes.layer (Scenes.draw 1) Scenes.full_boxes
              Scenes.far_points Scenes.far_boxes) 0
         ++ spec_existing_boxes AxisAligned.CLASS Scenes.full_boxes 0)
        ++ repeat (repeat 0 8) k.
Proof.
  intros [k H].
  assert (Eout :
            nth 0
              (snd (augment_point_clouds_bounding_boxes
                      AxisAligned.CLASS AxisAligned.within_box3d
                      Scenes.full_point_clouds Scenes.full_boxes
                      (get_random_transformation
                         AxisAligned.CLASS AxisAligned.iou
                         Scenes.layer (Scenes.draw 1) Scenes.full_boxes
                         Scenes.far_points Scenes.far_boxes))) []
            = [Scenes.box 10 1; Scenes.box 0 1])
    by (vm_compute; reflexivity).
  assert (Erows :
            spec_paste_boxes AxisAligned.CLASS
              (get_random_transformation AxisAligned.CLASS AxisAligned.iou
                 Scenes.layer (Scenes.draw 1) Scenes.full_boxes
                 Scenes.far_points Scenes.far_boxes) 0
            ++ spec_existing_boxes AxisAligned.CLASS Scenes.full_boxes 0
            = [Scenes.box 10 1; Scenes.box 0 1; Scenes.box 5 1])
    by (vm_compute; reflexivity).
  rewrite Eout, Erows in H.
  apply (f_equal (@length (list Q))) in H.
  rewrite length_app in H. simpl in H. lia.
Qed.


(** On the sparse frame the three rows of the output are the pasted point,
    the input point that is kept, and a zero row. *)
Lemma augment_point_clouds_frame_witness :
  has_shape3 1 3 5 Scenes.sparse_point_clouds = true
  /\ has_shape4 1 1 2 5
       (OBJECT_POINT_CLOUDS Scenes.sparse_transformation) = true
  /\ has_shape3 1 1 8
       (OBJECT_BOUNDING_BOXES Scenes.sparse_transformation) = true
  /\ nth 0
       (fst (augment_point_clouds_bounding_boxes
               AxisAligned.CLASS AxisAligned.within_box3d
               Scenes.sparse_point_clouds Scenes.sparse_boxes
               Scenes.sparse_transformation)) []
     = [Scenes.point (51 # 5) 1; Scenes.point 0 1; [0; 0; 0; 0; 0]].
Proof.
  assert (H1 : has_shape3 1 3 5 Scenes.sparse_point_clouds = true)
    by reflexivity.
  assert (H2 : has_shape4 1 1 2 5
                 (OBJECT_POINT_CLOUDS Scenes.sparse_transformation) = true)
    by (vm_compute; reflexivity).
  assert (H3 : has_shape3 1 1 8
                 (OBJECT_BOUNDING_BOXES Scenes.sparse_transformation) = true)
    by (vm_compute; reflexivity).
  split; [exact H1|]. split; [exact H2|]. split; [exact H3|].
  rewrite (augment_point_clouds_frame
             AxisAligned.CLASS AxisAligned.within_box3d
             Scenes.sparse_point_clouds Scenes.sparse_boxes
             Scenes.sparse_transformation 1 3 5 1 2 8 0 H1 H2 H3)
    by lia.
  vm_compute. reflexivity.
Defined.

(** On the sparse frame the two rows of the output are the pasted box and
    the labelled input box. *)
Lemma augment_bounding_boxes_frame_witness :
  has_shape3 1 3 5 Scenes.sparse_point_clouds = true
  /\ has_shape3 1 2 8 Scenes.sparse_boxes = true
  /\ has_shape3 1 1 8
       (OBJECT_BOUNDING_BOXES Scenes.sparse_transformation) = true
  /\ nth 0
       (snd (augment_point_clouds_bounding_boxes
               AxisAligned.CLASS AxisAligned.within_box3d
               Scenes.sparse_point_clouds Scenes.sparse_boxes
               Scenes.sparse_transformation)) []
     = [Scenes.box 10 1; Scenes.box 0 1].
Proof.
  assert (H1 : has_shape3 1 3 5 Scenes.sparse_point_clouds = true)
    by reflexivity.
  assert (H2 : has_shape3 1 2 8 Scenes.sparse_boxes = true) by reflexivity.
  assert (H3 : has_shape3 1 1 8
                 (OBJECT_BOUNDING_BOXES Scenes.sparse_transformation) = true)
    by (vm_compute; reflexivity).
  split; [exact H1|]. split; [exact H2|]. split; [exact H3|].
  rewrite (augment_bounding_boxes_frame
             AxisAligned.CLASS AxisAligned.within_box3d
             Scenes.sparse_point_clouds Scenes.sparse_boxes
             Scenes.sparse_transformation 1 3 5 2 8 1 0 H1 H2 H3)
    by lia.
  vm_compute. reflexivity.
Defined.

(** The sparse frame keeps its shapes [1 x 3 x 5] and [1 x 2 x 8]. *)
Lemma augment_preserves_shapes_witness :
  has_shape3 1 3 5 Scenes.sparse_point_clouds = true
  /\ has_shape3 1 2 8 Scenes.sparse_boxes = true
  /\ (let out :=
        augment_point_clouds_bounding_boxes
          AxisAligned.CLASS AxisAligned.within_box3d
          Scenes.sparse_point_clouds Scenes.sparse_boxes
          Scenes.sparse_transformation in
      has_shape3 1 3 5 (fst out) = true
      /\ has_shape3 1 2 8 (snd out) = true
      /\ get_shape (fst out) = get_shape Scenes.sparse_point_clouds
      /\ get_shape (snd out) = get_shape Scenes.sparse_boxes).
Proof.
  assert (H1 : has_shape3 1 3 5 Scenes.sparse_point_clouds = true)
    by reflexivity.
  assert (H2 : has_shape3 1 2 8 Scenes.sparse_boxes = true) by reflexivity.
  split; [exact H1|]. split; [exact H2|].
  apply (augment_preserves_shapes
           AxisAligned.CLASS AxisAligned.within_box3d
           Scenes.sparse_point_clouds Scenes.sparse_boxes
           Scenes.sparse_transformation 1 3 5 2 8 H1 H2).
  lia.
Defined.




(** * Further properties of the layer *)

(** ** Configuration *)

(** X1: the configuration of an accepted layer rebuilds the same layer:
    feeding the three entries of [get_config] back to the constructor passes
    every guard and returns the layer itself. *)
Theorem config_round_trip :
  forall (label_index : option Z) (lo hi : Z) (self : RandomCopyPaste),
    __init__ label_index lo hi = Ok self ->
    __init__ (fst (fst (get_config self))) (snd (fst (get_config self)))
             (snd (get_config self))
    = Ok self.
Proof.
  intros label_index lo hi self H.
  destruct (init_Ok_inv _ _ _ _ H) as [Hl [Hlo [Hhi _]]].
  unfold get_config. cbn [fst snd]. rewrite Hl, Hlo, Hhi. exact H.
Qed.

Lemma config_round_trip_witness :
  __init__ (Some 1%Z) 0 10 = Ok Scenes.layer_class_1
  /\ __init__ (fst (fst (get_config Scenes.layer_class_1)))
              (snd (fst (get_config Scenes.layer_class_1)))
              (snd (get_config Scenes.layer_class_1))
     = Ok Scenes.layer_class_1.
Proof.
  assert (H : __init__ (Some 1%Z) 0 10 = Ok Scenes.layer_class_1)
    by reflexivity.
  split; [exact H|].
  apply (config_round_trip (Some 1%Z) 0 10 Scenes.layer_class_1 H).
Defined.

(** X2: the guards of the constructor are tried in the order label,
    minimum, maximum, maximum against minimum, and the first one that fails
    gives the message; in particular a negative maximum is reported as such
    even though it is also below a non-negative minimum. *)
Theorem init_first_failing_guard :
  forall (label_index : option Z) (lo hi : Z),
    let label_bad :=
      exists z, label_index = Some z /\ z <> 0%Z /\ (z < 0)%Z in
    (label_bad ->
     __init__ label_index lo hi
     = Raise (ValueError "label_index must be >=0."))
    /\ (~ label_bad -> (lo < 0)%Z ->
        __init__ label_index lo hi
        = Raise (ValueError "min_paste_bounding_boxes must be >=0."))
    /\ (~ label_bad -> (0 <= lo)%Z -> (hi < 0)%Z ->
        __init__ label_index lo hi
        = Raise (ValueError "max_paste_bounding_boxes must be >=0."))
    /\ (~ label_bad -> (0 <= lo)%Z -> (0 <= hi)%Z -> (hi < lo)%Z ->
        __init__ label_index lo hi
        = Raise (ValueError
                   "max_paste_bounding_boxes must be >= min_paste_bounding_boxes.")).
Proof.
  intros label_index lo hi label_bad. unfold __init__.
  assert (Hlabel :
            truthy label_index && label_negative label_index = true
            <-> label_bad).
  { unfold label_bad. destruct label_index as [z|]; simpl.
    - rewrite andb_true_iff, negb_true_iff, Z.eqb_neq, Z.ltb_lt.
      split.
      + intros [Hnz Hneg]. exists z. auto.
      + intros [z' [Heq [Hnz Hneg]]]. injection Heq as ->. auto.
    - split; [discriminate|]. intros [z [Heq _]]. discriminate. }
  destruct (truthy label_index && label_negative label_index) eqn:E.
  - assert (Hbad : label_bad) by (apply Hlabel; reflexivity).
    repeat split; intros; try reflexivity; contradiction.
  - assert (Hgood : ~ label_bad) by (intro H; apply Hlabel in H; discriminate).
    split; [intros H; contradiction|].
    destruct (Z.ltb_spec lo 0); destruct (Z.ltb_spec hi 0);
      destruct (Z.ltb_spec hi lo);
      repeat split; intros; try reflexivity; lia.
Qed.

Lemma init_first_failing_guard_witness :
  __init__ (Some (-1)%Z) (-1) (-1)
  = Raise (ValueError "label_index must be >=0.")
  /\ __init__ None 3 (-1)
     = Raise (ValueError "max_paste_bounding_boxes must be >=0.")
  /\ __init__ None 3 2
     = Raise (ValueError
                "max_paste_bounding_boxes must be >= min_paste_bounding_boxes.").
Proof.
  split; [|split].
  - apply (proj1 (init_first_failing_guard (Some (-1)%Z) (-1) (-1))).
    exists (-1)%Z. repeat split; lia.
  - apply (proj1 (proj2 (proj2 (init_first_failing_guard None 3 (-1)))));
      [intros [z [H _]]; discriminate | lia | lia].
  - apply (proj2 (proj2 (proj2 (init_first_failing_guard None 3 2))));
      [intros [z [H _]]; discriminate | lia | lia | lia].
Defined.

(** ** How many objects are pasted *)

Lemma cast_int32_below :
  forall (lo hi : Z) (u : Q),
    (0 <= lo)%Z -> inject_Z lo <= u -> u < inject_Z hi ->
    (0 <= cast_int32 u < hi)%Z.
Proof.
  intros lo hi [a b] Hlo Hl Hh. unfold cast_int32, Qle, Qlt in *.
  simpl in *.
  assert (Ha : (0 <= a)%Z) by nia.
  rewrite Z.quot_div_nonneg by lia. split.
  - apply Z.div_pos; lia.
  - apply Z.div_lt_upper_bound; lia.
Qed.

Lemma slice_axis1_Forall_length :
  forall (A : Type) (n bound : Z) (t : list (list A)),
    (0 <= n < bound)%Z ->
    Forall (fun frame => (Z.of_nat (length frame) < bound)%Z)
           (slice_axis1 n t).
Proof.
  intros A n bound t Hn. unfold slice_axis1.
  apply Forall_forall. intros frame Hin.
  apply in_map_iff in Hin. destruct Hin as [X [<- _]].
  pose proof (slice_to_length_nonneg _ n X (proj1 Hn)). lia.
Qed.

Section PasteCount.

Variable CLASS : nat.
Variable iou : tensor 1 -> tensor 1 -> Q.

(** X3: [random.uniform] draws from the half-open interval
    [[minval, maxval)] and the draw is truncated, so whenever the minimum
    is below the maximum, fewer than [max_paste_bounding_boxes] objects are
    pasted in every frame: the maximum itself is never reached. *)
Theorem paste_count_below_max :
  forall (label_index : option Z) (lo hi : Z) (self : RandomCopyPaste)
         (draw : Draw) (bounding_boxes : tensor 3)
         (object_point_clouds : tensor 4) (object_bounding_boxes : tensor 3),
    __init__ label_index lo hi = Ok self ->
    inject_Z lo <= uniform draw ->
    uniform draw < inject_Z hi ->
    let t :=
      get_random_transformation CLASS iou self draw bounding_boxes
        object_point_clouds object_bounding_boxes in
    Forall (fun frame => (Z.of_nat (length frame) < hi)%Z)
           (OBJECT_POINT_CLOUDS t)
    /\ Forall (fun frame => (Z.of_nat (length frame) < hi)%Z)
              (OBJECT_BOUNDING_BOXES t).
Proof.
  intros label_index lo hi self draw bounding_boxes opc obb
         Hinit Hlo Hhi t.
  destruct (init_Ok_inv _ _ _ _ Hinit) as [_ [_ [_ Hrange]]].
  pose proof (cast_int32_below lo hi (uniform draw)
                (proj1 Hrange) Hlo Hhi) as Hn.
  subst t. unfold get_random_transformation.
  destruct (truthy (_label_index self));
    cbn [OBJECT_POINT_CLOUDS OBJECT_BOUNDING_BOXES];
    split; apply slice_axis1_Forall_length; exact Hn.
Qed.

End PasteCount.

(** With the default arguments and a draw of [19/2] fewer than ten objects
    are pasted. *)
Lemma paste_count_below_max_witness :
  __init__ None 0 10 = Ok Scenes.layer
  /\ inject_Z 0 <= uniform (Scenes.draw (19 # 2))
  /\ uniform (Scenes.draw (19 # 2)) < inject_Z 10
  /\ (let t :=
        get_random_transformation AxisAligned.CLASS AxisAligned.iou
          Scenes.layer (Scenes.draw (19 # 2))
          Scenes.street_boxes Scenes.parked_points Scenes.parked_boxes in
      Forall (fun frame => (Z.of_nat (length frame) < 10)%Z)
             (OBJECT_POINT_CLOUDS t)
      /\ Forall (fun frame => (Z.of_nat (length frame) < 10)%Z)
                (OBJECT_BOUNDING_BOXES t)).
Proof.
  assert (H1 : __init__ None 0 10 = Ok Scenes.layer) by reflexivity.
  assert (H2 : inject_Z 0 <= uniform (Scenes.draw (19 # 2)))
    by (unfold Qle; simpl; lia).
  assert (H3 : uniform (Scenes.draw (19 # 2)) < inject_Z 10)
    by (unfold Qlt; simpl; lia).
  split; [exact H1|]. split; [exact H2|]. split; [exact H3|].
  apply (paste_count_below_max AxisAligned.CLASS AxisAligned.iou
           None 0 10 Scenes.layer (Scenes.draw (19 # 2))
           Scenes.street_boxes Scenes.parked_points Scenes.parked_boxes
           H1 H2 H3).
Defined.

(** ** Masks, slices and gathers as selections of indices *)

Lemma boolean_mask_map_comm :
  forall (A B : Type) (g : A -> B) (l : list A) (mask : list bool),
    boolean_mask (map g l) mask = map g (boolean_mask l mask).
Proof.
  intros A B g l. induction l as [|x l IH]; intros mask; [reflexivity|].
  destruct mask as [|b mask]; [reflexivity|].
  simpl map. rewrite !boolean_mask_cons. rewrite IH.
  destruct b; reflexivity.
Qed.

Lemma slice_to_map :
  forall (A B : Type) (g : A -> B) (n : Z) (l : list A),
    slice_to n (map g l) = map g (slice_to n l).
Proof.
  intros A B g n l. unfold slice_to. rewrite length_map.
  destruct (n <? 0)%Z; apply firstn_map.
Qed.

Lemma nth_from_seq :
  forall (A : Type) (d : A) (X : list A) (s : nat),
    map (fun j => nth (j - s) X d) (seq s (length X)) = X.
Proof.
  intros A d X. induction X as [|x X IH]; intros s; [reflexivity|].
  simpl length. simpl seq. simpl map. rewrite Nat.sub_diag. f_equal.
  rewrite <- (IH (S s)) at 2. apply map_ext_in.
  intros j Hj. apply in_seq in Hj.
  replace (j - s)%nat with (S (j - S s)) by lia. reflexivity.
Qed.

Lemma gather_seq :
  forall (A : Type) (d : A) (X : list A),
    gather d X (seq 0 (length X)) = X.
Proof.
  intros A d X. unfold gather.
  transitivity (map (fun j => nth (j - 0) X d) (seq 0 (length X))).
  - apply map_ext. intros j. rewrite Nat.sub_0_r. reflexivity.
  - apply nth_from_seq.
Qed.

Lemma boolean_mask_as_gather :
  forall (A : Type) (d : A) (X : list A) (mask : list bool),
    boolean_mask X mask
    = gather d X (boolean_mask (seq 0 (length X)) mask).
Proof.
  intros A d X mask. rewrite <- (gather_seq A d X) at 1.
  unfold gather. apply boolean_mask_map_comm.
Qed.

Lemma gather_gather :
  forall (A : Type) (d : A) (X : list A) (idx perm : list nat),
    Forall (fun j => (j < length idx)%nat) perm ->
    gather d (gather d X idx) perm = gather d X (gather 0%nat idx perm).
Proof.
  intros A d X idx perm H. unfold gather. rewrite map_map.
  apply map_ext_in. intros j Hj. rewrite Forall_forall in H.
  apply (nth_map_default _ _ (fun i => nth i X d) idx j 0%nat d).
  auto.
Qed.

Lemma gather_Permutation :
  forall (A : Type) (d : A) (l : list A) (perm : list nat),
    Permutation perm (seq 0 (length l)) ->
    Permutation (gather d l perm) l.
Proof.
  intros A d l perm H. rewrite <- (gather_seq A d l) at 2.
  unfold gather. apply Permutation_map. exact H.
Qed.

Lemma NoDup_firstn :
  forall (A : Type) (n : nat) (l : list A), NoDup l -> NoDup (firstn n l).
Proof.
  intros A n l H. rewrite <- (firstn_skipn n l) in H.
  apply NoDup_app_remove_r in H. exact H.
Qed.

Lemma NoDup_slice_to :
  forall (A : Type) (n : Z) (l : list A), NoDup l -> NoDup (slice_to n l).
Proof.
  intros A n l H. destruct (slice_to_firstn _ n l) as [m ->].
  apply NoDup_firstn. exact H.
Qed.

Lemma NoDup_boolean_mask :
  forall (A : Type) (l : list A) (mask : list bool),
    NoDup l -> NoDup (boolean_mask l mask).
Proof.
  intros A l. induction l as [|x l IH]; intros mask H; [constructor|].
  destruct mask as [|b mask]; [constructor|].
  rewrite boolean_mask_cons. inversion H as [|? ? Hx Hl]; subst.
  destruct b; [|auto].
  constructor; [|auto].
  intros Hin. apply Hx. apply boolean_mask_In in Hin. exact Hin.
Qed.

Lemma has_shape3_frames :
  forall (f k e : nat) (t : tensor 3),
    has_shape3 f k e t = true -> Forall (fun X => length X = k) t.
Proof.
  intros f k e t H. apply has_shape3_spec in H. destruct H as [_ H].
  eapply Forall_impl; [|exact H]. intros X [HX _]. exact HX.
Qed.

Lemma has_shape4_frames :
  forall (f k p d : nat) (t : tensor 4),
    has_shape4 f k p d t = true -> Forall (fun X => length X = k) t.
Proof.
  intros f k p d t H. apply has_shape4_spec in H. destruct H as [_ H].
  eapply Forall_impl; [|exact H]. intros X HX. cbv beta in HX.
  apply has_shape3_spec in HX. tauto.
Qed.

Lemma map_frames_ext :
  forall (A B : Type) (k : nat) (G H : list A -> B) (t : list (list A)),
    Forall (fun X => length X = k) t ->
    (forall X, length X = k -> G X = H X) ->
    map G t = map H t.
Proof.
  intros A B k G H t Hall Hext. apply map_ext_in. intros X HX.
  rewrite Forall_forall in Hall. auto.
Qed.

Section Selection.

Variable CLASS : nat.
Variable iou : tensor 1 -> tensor 1 -> Q.

(** The class filter keeps the objects at a list of indices, the same in
    both tensors and in every frame. *)
Lemma class_filter_selects :
  forall (self : RandomCopyPaste)
         (opc : tensor 4) (obb : tensor 3) (f k p d e : nat),
    has_shape4 f k p d opc = true ->
    has_shape3 f k e obb = true ->
    exists idx : list nat,
      NoDup idx
      /\ Forall (fun j => (j < k)%nat) idx
      /\ (if truthy (_label_index self) then
            (boolean_mask_axis1 opc
               (map (fun box =>
                       Qeq_bool (feature CLASS box) (label_value self))
                    (hd [] obb)),
             boolean_mask_axis1 obb
               (map (fun box =>
                       Qeq_bool (feature CLASS box) (label_value self))
                    (hd [] obb)))
          else (opc, obb))
         = (gather_axis1 [] opc idx, gather_axis1 [] obb idx).
Proof.
  intros self opc obb f k p d e Hopc Hobb.
  pose proof (has_shape4_frames _ _ _ _ _ Hopc) as Fopc.
  pose proof (has_shape3_frames _ _ _ _ Hobb) as Fobb.
  destruct (truthy (_label_index self)).
  - set (om := map (fun box =>
                      Qeq_bool (feature CLASS box) (label_value self))
                   (hd [] obb)).
    exists (boolean_mask (seq 0 k) om). split; [|split].
    + apply NoDup_boolean_mask. apply seq_NoDup.
    + apply Forall_forall. intros j Hj. apply boolean_mask_In in Hj.
      apply in_seq in Hj. lia.
    + unfold boolean_mask_axis1, gather_axis1. f_equal.
      * apply (map_frames_ext _ _ k); [exact Fopc|].
        intros X HX. rewrite <- HX. apply boolean_mask_as_gather.
      * apply (map_frames_ext _ _ k); [exact Fobb|].
        intros X HX. rewrite <- HX. apply boolean_mask_as_gather.
  - exists (seq 0 k). split; [|split].
    + apply seq_NoDup.
    + apply Forall_forall. intros j Hj. apply in_seq in Hj. lia.
    + unfold gather_axis1. f_equal.
      * rewrite <- (map_id opc) at 1.
        apply (map_frames_ext _ _ k); [exact Fopc|].
        intros X HX. rewrite <- HX. symmetry. apply gather_seq.
      * rewrite <- (map_id obb) at 1.
        apply (map_frames_ext _ _ k); [exact Fobb|].
        intros X HX. rewrite <- HX. symmetry. apply gather_seq.
Qed.

(** X4: the transformation is a selection of candidates.  There is one list
    of distinct object indices such that, in every frame, the retained point
    clouds and the retained boxes are the candidates at these indices, in
    this order: boxes and point clouds stay paired, an object keeps its
    position across the frames, and no object is pasted twice. *)
Theorem transformation_selects_objects :
  forall (self : RandomCopyPaste) (draw : Draw) (bounding_boxes : tensor 3)
         (object_point_clouds : tensor 4) (object_bounding_boxes : tensor 3)
         (f k p d e : nat),
    (forall l, Permutation (shuffle draw l) l) ->
    has_shape4 f k p d object_point_clouds = true ->
    has_shape3 f k e object_bounding_boxes = true ->
    (0 < f)%nat ->
    let t :=
      get_random_transformation CLASS iou self draw bounding_boxes
        object_point_clouds object_bounding_boxes in
    exists idx : list nat,
      NoDup idx
      /\ Forall (fun j => (j < k)%nat) idx
      /\ OBJECT_POINT_CLOUDS t = gather_axis1 [] object_point_clouds idx
      /\ OBJECT_BOUNDING_BOXES t = gather_axis1 [] object_bounding_boxes idx.
Proof.
  intros self draw bounding_boxes opc obb f k p d e Hperm Hopc Hobb Hf t.
  destruct (class_filter_selects self opc obb f k p d e Hopc Hobb)
    as [idx1 [Hnodup [Hrange E]]].
  subst t. unfold get_random_transformation. cbv zeta. rewrite E.
  cbn [OBJECT_POINT_CLOUDS OBJECT_BOUNDING_BOXES].
  assert (Hdim : dim1 (gather_axis1 [] opc idx1) = length idx1).
  { apply has_shape4_spec in Hopc. destruct Hopc as [Hlen _].
    destruct opc as [|X opc]; [simpl in Hlen; lia|].
    unfold dim1. simpl. apply gather_length. }
  rewrite Hdim.
  match goal with
  | |- context [boolean_mask_axis1 _ ?m] => generalize m
  end.
  intros mask.
  match goal with
  | |- context [slice_axis1 (Z.min ?a ?b) _] => generalize (Z.min a b)
  end.
  intros num_compare.
  generalize (cast_int32 (uniform draw)). intros num_paste.
  destruct (shuffle_range draw (length idx1) Hperm) as [Hplen Hpall].
  pose proof (Hperm (seq 0 (length idx1))) as Hp.
  set (perm := shuffle draw (seq 0 (length idx1))) in *. clearbody perm.
  exists (slice_to num_paste
            (boolean_mask
               (slice_to num_compare (gather 0%nat idx1 perm)) mask)).
  split; [|split; [|split]].
  - apply NoDup_slice_to, NoDup_boolean_mask, NoDup_slice_to.
    apply (Permutation_NoDup
             (Permutation_sym (gather_Permutation _ 0%nat idx1 perm Hp))).
    exact Hnodup.
  - apply Forall_forall. intros j Hj.
    apply slice_to_In, boolean_mask_In, slice_to_In in Hj.
    apply gather_In in Hj; [|exact Hpall].
    rewrite Forall_forall in Hrange. auto.
  - unfold slice_axis1, boolean_mask_axis1, gather_axis1.
    rewrite !map_map. apply map_ext. intros X.
    rewrite gather_gather by exact Hpall.
    unfold gather.
    rewrite slice_to_map, boolean_mask_map_comm, slice_to_map.
    reflexivity.
  - unfold slice_axis1, boolean_mask_axis1, gather_axis1.
    rewrite !map_map. apply map_ext. intros X.
    rewrite gather_gather by exact Hpall.
    unfold gather.
    rewrite slice_to_map, boolean_mask_map_comm, slice_to_map.
    reflexivity.
Qed.

End Selection.

(** ** When nothing overlaps *)

Lemma Qsum_firstn_le :
  forall (n : nat) (l : list Q),
    Forall (fun x => 0 <= x) l -> Qsum (firstn n l) <= Qsum l.
Proof.
  intros n l H. rewrite <- (firstn_skipn n l) at 2. rewrite Qsum_app.
  assert (Hs : 0 <= Qsum (skipn n l)).
  { apply Qsum_nonneg. apply Forall_forall. intros x Hx.
    rewrite Forall_forall in H. apply H.
    rewrite <- (firstn_skipn n l). apply in_or_app. right. exact Hx. }
  lra.
Qed.

Lemma Qsum_Permutation :
  forall l l' : list Q, Permutation l l' -> Qsum l == Qsum l'.
Proof.
  intros l l' H. induction H; simpl.
  - reflexivity.
  - rewrite IHPermutation. reflexivity.
  - lra.
  - rewrite IHPermutation1. exact IHPermutation2.
Qed.

Lemma Qsum_map_filter_le :
  forall (A : Type) (h : A -> Q) (p : A -> bool) (l : list A),
    (forall x, 0 <= h x) ->
    Qsum (map h (filter p l)) <= Qsum (map h l).
Proof.
  intros A h p l Hh. induction l as [|x l IH]; simpl.
  - lra.
  - pose proof (Hh x). destruct (p x); simpl; lra.
Qed.

Lemma Qsum_map_nonneg :
  forall (A : Type) (h : A -> Q) (l : list A),
    (forall x, 0 <= h x) -> Forall (fun x => 0 <= x) (map h l).
Proof.
  intros A h l Hh. apply Forall_forall. intros x Hx.
  apply in_map_iff in Hx. destruct Hx as [y [<- _]]. apply Hh.
Qed.

Lemma boolean_mask_all_true :
  forall (A : Type) (X : list A) (mask : list bool),
    (forall i, (i < length X)%nat -> nth_error mask i = Some true) ->
    boolean_mask X mask = X.
Proof.
  intros A X. induction X as [|x X IH]; intros mask H; [reflexivity|].
  destruct mask as [|b mask].
  - specialize (H 0%nat). simpl in H. assert (0 < S (length X))%nat by lia.
    specialize (H H0). discriminate.
  - rewrite boolean_mask_cons.
    assert (Hb : b = true).
    { specialize (H 0%nat). simpl in H.
      assert (H0 : (0 < S (length X))%nat) by lia.
      specialize (H H0). injection H as ->. reflexivity. }
    subst b. f_equal. apply IH. intros i Hi.
    apply (H (S i)). simpl. lia.
Qed.

Lemma wrap32_small :
  forall z : Z, (0 <= z < 2 ^ 31)%Z -> wrap32 z = z.
Proof.
  intros z Hz. unfold wrap32.
  rewrite Z.mod_small; lia.
Qed.

Lemma slice_to_length_min :
  forall (A : Type) (n : Z) (l : list A),
    (0 <= n)%Z ->
    length (slice_to n l) = Nat.min (Z.to_nat n) (length l).
Proof.
  intros A n l Hn. unfold slice_to.
  destruct (Z.ltb_spec n 0); [lia|]. apply length_firstn.
Qed.

Section MaskForward.

Variable iou : tensor 1 -> tensor 1 -> Q.

Lemma overlap_mask_nth_true :
  forall (all : list (list Q)) (num_existing i : nat) (a : list Q),
    nth_error all (num_existing + i) = Some a ->
    Qsum (map (iou a) (firstn (S (num_existing + i)) all)) <= 1 ->
    nth_error
      (map (fun s => Qle_bool s 1)
           (reduce_sum_axis1
              (skipn num_existing
                     (band_part (iou_3d iou all all) (-1) 0)))) i
    = Some true.
Proof.
  intros all num_existing i a Ha Hsum.
  unfold reduce_sum_axis1. rewrite map_map. rewrite nth_error_map.
  rewrite nth_error_skipn.
  unfold band_part. rewrite mapi_from_nth_error.
  unfold iou_3d. rewrite nth_error_map.
  simpl. change (tensor 1) with (list Q) in *. rewrite Ha. simpl.
  f_equal. apply Qle_bool_iff. apply float32_le_1.
  rewrite Qsum_lower_row. rewrite Nat.sub_0_r. rewrite firstn_map.
  exact Hsum.
Qed.

End MaskForward.

Section Liveness.

Variable CLASS : nat.
Variable iou : tensor 1 -> tensor 1 -> Q.

Hypothesis iou_nonneg : forall a b, 0 <= iou a b.

(** The candidates of the first frame left by the class filter. *)
Lemma class_filter_first_frame :
  forall (self : RandomCopyPaste) (opc : tensor 4) (obb : tensor 3),
    hd [] (snd (if truthy (_label_index self) then
                  (boolean_mask_axis1 opc
                     (map (fun box =>
                             Qeq_bool (feature CLASS box) (label_value self))
                          (hd [] obb)),
                   boolean_mask_axis1 obb
                     (map (fun box =>
                             Qeq_bool (feature CLASS box) (label_value self))
                          (hd [] obb)))
                else (opc, obb)))
    = if truthy (_label_index self)
      then filter (fun box =>
                     Qeq_bool (feature CLASS box) (label_value self))
                  (hd [] obb)
      else hd [] obb.
Proof.
  intros self opc obb. destruct (truthy (_label_index self)); cbn [snd].
  - destruct obb as [|X obb]; [reflexivity|].
    simpl. apply boolean_mask_map_filter.
  - reflexivity.
Qed.

(** A candidate whose IoU summed over the existing boxes and a prefix of the
    shuffled candidates stays within the total passes the overlap test. *)
Lemma window_row_sum :
  forall (existing candidates C : list (list Q)) (perm : list nat)
         (q i : nat) (c : list Q),
    Permutation perm (seq 0 (length C)) ->
    (forall h : list Q -> Q,
        (forall x, 0 <= h x) ->
        Qsum (map h C) <= Qsum (map h candidates)) ->
    Qsum (map (fun a => iou (firstn 7 c) (firstn 7 a))
              (existing ++ candidates)) <= 1 ->
    Qsum (map (iou (firstn 7 c))
              (firstn (S (length existing + i))
                      (map (firstn 7)
                           (existing ++ firstn q (gather [] C perm)))))
    <= 1.
Proof.
  intros existing candidates C perm q i c Hperm Hsub Htotal.
  set (h := fun a : list Q => iou (firstn 7 c) (firstn 7 a)) in *.
  assert (Hh : forall x, 0 <= h x) by (intros x; apply iou_nonneg).
  rewrite <- firstn_map.
  eapply Qle_trans; [apply Qsum_firstn_le|].
  { apply Qsum_map_nonneg. intros x. apply iou_nonneg. }
  rewrite map_map. fold h.
  rewrite map_app, Qsum_app.
  rewrite map_app, Qsum_app in Htotal.
  assert (H1 : Qsum (map h (firstn q (gather [] C perm)))
               <= Qsum (map h (gather [] C perm))).
  { rewrite <- firstn_map. apply Qsum_firstn_le.
    apply Qsum_map_nonneg. exact Hh. }
  assert (H2 : Qsum (map h (gather [] C perm)) == Qsum (map h C)).
  { apply Qsum_Permutation. apply Permutation_map.
    apply gather_Permutation. exact Hperm. }
  pose proof (Hsub h Hh) as H3.
  lra.
Qed.

(** X5: when nothing overlaps, the layer pastes all it may.  If the IoU of
    every candidate, summed over the existing boxes of the first frame and
    over all candidates of the first frame (itself included), is at most
    [1], then every frame of the transformation holds exactly
    [min(num_paste_bounding_boxes, candidates)] objects, where
    [num_paste_bounding_boxes] is the truncated draw. *)
Theorem disjoint_candidates_are_pasted :
  forall (label_index : option Z) (lo hi : Z) (self : RandomCopyPaste)
         (draw : Draw) (bounding_boxes : tensor 3)
         (object_point_clouds : tensor 4) (object_bounding_boxes : tensor 3)
         (f m k p d e : nat),
    __init__ label_index lo hi = Ok self ->
    inject_Z lo <= uniform draw ->
    uniform draw <= inject_Z hi ->
    (hi * 5 < 2 ^ 31)%Z ->
    (forall l, Permutation (shuffle draw l) l) ->
    has_shape3 f m e bounding_boxes = true ->
    has_shape4 f k p d object_point_clouds = true ->
    has_shape3 f k e object_bounding_boxes = true ->
    (0 < f)%nat ->
    Forall (fun c =>
              Qsum (map (fun a => iou (firstn 7 c) (firstn 7 a))
                        (hd [] bounding_boxes
                         ++ hd [] object_bounding_boxes)) <= 1)
           (hd [] object_bounding_boxes) ->
    let t :=
      get_random_transformation CLASS iou self draw bounding_boxes
        object_point_clouds object_bounding_boxes in
    let pasted :=
      Nat.min (Z.to_nat (cast_int32 (uniform draw)))
              (candidates_after_filter CLASS self object_bounding_boxes) in
    forall i,
      (i < f)%nat ->
      length (nth i (OBJECT_POINT_CLOUDS t) []) = pasted
      /\ length (nth i (OBJECT_BOUNDING_BOXES t) []) = pasted.
Proof.
  intros label_index lo hi self draw bb opc obb f m k p d e
         Hinit Hlo Hhi Hsmall Hperm Hbb Hopc Hobb Hf Htotal t pasted.
  destruct (init_Ok_inv _ _ _ _ Hinit) as [_ [_ [_ Hrange]]].
  pose proof (cast_int32_bounds lo hi (uniform draw)
                (proj1 Hrange) Hlo Hhi) as Hn.
  pose proof (class_filter_spec CLASS self opc obb f k p d e Hopc Hobb Hf)
    as Hfilter.
  pose proof (class_filter_first_frame self opc obb) as Hfirst.
  subst t pasted. unfold get_random_transformation.
  cbv zeta in Hfilter |- *.
  match goal with
  | |- context [if truthy ?x then ?a else ?b] =>
      destruct (if truthy x then a else b) as [opc1 obb1]
  end.
  cbn [fst snd] in Hfilter, Hfirst.
  destruct Hfilter as [Hlen1 [Hlen2 [Hdim [Hhd _]]]].
  assert (HCin : forall c, In c (hd [] obb1) -> In c (hd [] obb)).
  { intros c Hc. rewrite Hfirst in Hc.
    destruct (truthy (_label_index self)); [|exact Hc].
    apply filter_In in Hc. tauto. }
  assert (HCsum : forall h : list Q -> Q,
             (forall x, 0 <= h x) ->
             Qsum (map h (hd [] obb1)) <= Qsum (map h (hd [] obb))).
  { intros h Hh. rewrite Hfirst.
    destruct (truthy (_label_index self)).
    - apply Qsum_map_filter_le. exact Hh.
    - apply Qle_refl. }
  clear Hfirst.
  cbn [OBJECT_POINT_CLOUDS OBJECT_BOUNDING_BOXES].
  set (n := cast_int32 (uniform draw)) in *.
  destruct (shuffle_range draw (dim1 opc1) Hperm) as [Hplen Hpall].
  pose proof (Hperm (seq 0 (dim1 opc1))) as Hp.
  set (perm := shuffle draw (seq 0 (dim1 opc1))) in *. clearbody perm.
  assert (Hdimg : dim1 (gather_axis1 [] opc1 perm) = length perm).
  { destruct opc1 as [|X opc1]; [simpl in Hlen1; lia|].
    unfold dim1. simpl. apply gather_length. }
  rewrite Hdimg. rewrite wrap32_small by lia.
  set (kk := Z.min (n * 5) (Z.of_nat (length perm))).
  destruct obb1 as [|C obb1]; [simpl in Hlen2; lia|].
  apply has_shape3_spec in Hbb. destruct Hbb as [Hlenb _].
  destruct bb as [|Ex bb]; [simpl in Hlenb; lia|].
  cbn [hd] in Htotal, HCin, HCsum, Hhd.
  change (hd [] (concat_axis1 (Ex :: bb)
                   (slice_axis1 kk (gather_axis1 [] (C :: obb1) perm))))
    with (Ex ++ slice_to kk (gather [] C perm)).
  change (dim1 (Ex :: bb)) with (length Ex).
  match goal with
  | |- context [boolean_mask_axis1 _ ?m] => set (mask := m)
  end.
  assert (Hmask : forall j,
             (j < length (slice_to kk perm))%nat ->
             nth_error mask j = Some true).
  { intros j Hj.
    assert (HW : length (slice_to kk (gather [] C perm))
                 = length (slice_to kk perm))
      by (apply slice_to_length_eq; apply gather_length).
    destruct (nth_error (slice_to kk (gather [] C perm)) j) as [c|] eqn:Hc.
    2:{ apply nth_error_None in Hc. lia. }
    assert (Hcin : In c (hd [] obb)).
    { apply HCin. apply nth_error_In in Hc. apply slice_to_In in Hc.
      apply gather_In in Hc; [exact Hc|]. rewrite Hhd. exact Hpall. }
    subst mask. apply overlap_mask_nth_true with (a := firstn 7 c).
    - apply nth_error_all_candidate. exact Hc.
    - destruct (slice_to_firstn _ kk (gather [] C perm)) as [q ->].
      apply (window_row_sum Ex (hd [] obb) C perm q j c).
      + rewrite Hhd. exact Hp.
      + exact HCsum.
      + rewrite Forall_forall in Htotal. apply Htotal. exact Hcin. }
  clearbody mask.
  assert (Hframe :
            forall (A : Type) (X : list (list A)),
              length (slice_to n
                        (boolean_mask (slice_to kk (gather [] X perm)) mask))
              = Nat.min (Z.to_nat n)
                        (candidates_after_filter CLASS self obb)).
  { intros A X.
    rewrite boolean_mask_all_true.
    - rewrite !slice_to_length_min by lia. rewrite gather_length.
      rewrite <- Hdim, <- Hplen. subst kk. lia.
    - intros j Hj. apply Hmask.
      rewrite (slice_to_length_eq _ _ kk (gather [] X perm) perm) in Hj
        by apply gather_length.
      exact Hj. }
  intros i Hi.
  unfold slice_axis1, boolean_mask_axis1, gather_axis1.
  rewrite !map_map.
  rewrite (nth_map_default _ _ _ opc1 i [] []) by lia.
  rewrite (nth_map_default _ _ _ (C :: obb1) i [] []) by lia.
  split; apply Hframe.
Qed.

End Liveness.

(** ** The further properties on concrete scenes *)

(** On the street scene the layer of class [1] selects the candidates at
    some distinct indices. *)
Lemma transformation_selects_objects_witness :
  (forall l, Permutation (shuffle (Scenes.draw (9 # 2)) l) l)
  /\ has_shape4 1 4 1 5 Scenes.parked_points = true
  /\ has_shape3 1 4 8 Scenes.parked_boxes = true
  /\ (let t :=
        get_random_transformation AxisAligned.CLASS AxisAligned.iou
          Scenes.layer_class_1 (Scenes.draw (9 # 2))
          Scenes.street_boxes Scenes.parked_points Scenes.parked_boxes in
      exists idx : list nat,
        NoDup idx
        /\ Forall (fun j => (j < 4)%nat) idx
        /\ OBJECT_POINT_CLOUDS t = gather_axis1 [] Scenes.parked_points idx
        /\ OBJECT_BOUNDING_BOXES t
           = gather_axis1 [] Scenes.parked_boxes idx).
Proof.
  assert (H1 : forall l, Permutation (shuffle (Scenes.draw (9 # 2)) l) l)
    by (intros l; apply Permutation_refl).
  assert (H2 : has_shape4 1 4 1 5 Scenes.parked_points = true)
    by reflexivity.
  assert (H3 : has_shape3 1 4 8 Scenes.parked_boxes = true) by reflexivity.
  split; [exact H1|]. split; [exact H2|]. split; [exact H3|].
  apply (transformation_selects_objects AxisAligned.CLASS AxisAligned.iou
           Scenes.layer_class_1 (Scenes.draw (9 # 2))
           Scenes.street_boxes Scenes.parked_points Scenes.parked_boxes
           1 4 1 5 8 H1 H2 H3).
  lia.
Defined.

(** On the open road nothing overlaps: with a draw of [5/2] two of the three
    candidates are pasted. *)
Example open_road_pasted :
  get_random_transformation AxisAligned.CLASS AxisAligned.iou
    Scenes.layer (OpenRoad.draw (5 # 2))
    OpenRoad.existing_boxes OpenRoad.candidate_points
    OpenRoad.candidate_boxes
  = {| OBJECT_POINT_CLOUDS :=
         [[[Scenes.point 30 1]; [Scenes.point 20 2]]];
       OBJECT_BOUNDING_BOXES := [[Scenes.box 30 1; Scenes.box 20 2]] |}.
Proof. vm_compute. reflexivity. Qed.

Lemma disjoint_candidates_are_pasted_witness :
  (forall a b, 0 <= AxisAligned.iou a b)
  /\ __init__ None 0 10 = Ok Scenes.layer
  /\ inject_Z 0 <= uniform (OpenRoad.draw (5 # 2))
  /\ uniform (OpenRoad.draw (5 # 2)) <= inject_Z 10
  /\ (forall l, Permutation (shuffle (OpenRoad.draw (5 # 2)) l) l)
  /\ Forall (fun c =>
               Qsum (map (fun a =>
                            AxisAligned.iou (firstn 7 c) (firstn 7 a))
                         (hd [] OpenRoad.existing_boxes
                          ++ hd [] OpenRoad.candidate_boxes)) <= 1)
            (hd [] OpenRoad.candidate_boxes)
  /\ (let t :=
        get_random_transformation AxisAligned.CLASS AxisAligned.iou
          Scenes.layer (OpenRoad.draw (5 # 2))
          OpenRoad.existing_boxes OpenRoad.candidate_points
          OpenRoad.candidate_boxes in
      forall i,
        (i < 1)%nat ->
        length (nth i (OBJECT_POINT_CLOUDS t) []) = 2%nat
        /\ length (nth i (OBJECT_BOUNDING_BOXES t) []) = 2%nat).
Proof.
  assert (H1 : __init__ None 0 10 = Ok Scenes.layer) by reflexivity.
  assert (H2 : inject_Z 0 <= uniform (OpenRoad.draw (5 # 2)))
    by (unfold Qle; simpl; lia).
  assert (H3 : uniform (OpenRoad.draw (5 # 2)) <= inject_Z 10)
    by (unfold Qle; simpl; lia).
  assert (H4 : forall l, Permutation (shuffle (OpenRoad.draw (5 # 2)) l) l)
    by (intros l; apply Permutation_sym, Permutation_rev).
  assert (H5 : Forall (fun c =>
                         Qsum (map (fun a =>
                                      AxisAligned.iou (firstn 7 c)
                                                      (firstn 7 a))
                                   (hd [] OpenRoad.existing_boxes
                                    ++ hd [] OpenRoad.candidate_boxes)) <= 1)
                      (hd [] OpenRoad.candidate_boxes))
    by (repeat constructor; unfold Qle; vm_compute; discriminate).
  split; [exact axis_aligned_iou_nonneg|].
  split; [exact H1|]. split; [exact H2|]. split; [exact H3|].
  split; [exact H4|]. split; [exact H5|].
  apply (disjoint_candidates_are_pasted
           AxisAligned.CLASS AxisAligned.iou axis_aligned_iou_nonneg
           None 0 10 Scenes.layer (OpenRoad.draw (5 # 2))
           OpenRoad.existing_boxes OpenRoad.candidate_points
           OpenRoad.candidate_boxes 1 1 3 1 5 8 H1 H2 H3);
    [lia | exact H4 | reflexivity | reflexivity | reflexivity | lia
    | exact H5].
Defined.

(** ** What the augmented frames hold *)

Section AugmentedFrames.

Variable CLASS : nat.
Variable within_box3d : tensor 1 -> tensor 1 -> bool.

Lemma spec_paste_points_width :
  forall (t : Transformation) (f k p d i : nat),
    has_shape4 f k p d (OBJECT_POINT_CLOUDS t) = true ->
    (i < f)%nat ->
    Forall (fun row : tensor 1 => length row = d) (spec_paste_points t i).
Proof.
  intros t f k p d i Hopc Hi. apply Forall_forall. intros row Hrow.
  unfold spec_paste_points in Hrow. apply filter_In in Hrow.
  destruct Hrow as [Hrow _]. apply in_concat in Hrow.
  destruct Hrow as [object [Hobject Hrow]].
  apply has_shape4_spec in Hopc. destruct Hopc as [Hlen4 Hall4].
  rewrite Forall_forall in Hall4.
  assert (Hframe : has_shape3 k p d (nth i (OBJECT_POINT_CLOUDS t) [])
                   = true).
  { apply Hall4. apply nth_In. lia. }
  apply has_shape3_spec in Hframe. destruct Hframe as [_ Hobjects].
  rewrite Forall_forall in Hobjects.
  destruct (Hobjects object Hobject) as [_ Hrows].
  rewrite Forall_forall in Hrows. auto.
Qed.

Lemma filter_frame_width :
  forall (q : tensor 1 -> bool) (t : tensor 3) (f n d i : nat),
    has_shape3 f n d t = true ->
    (i < f)%nat ->
    Forall (fun row : tensor 1 => length row = d) (filter q (nth i t [])).
Proof.
  intros q t f n d i Ht Hi. apply Forall_forall. intros row Hrow.
  apply filter_In in Hrow. destruct Hrow as [Hrow _].
  destruct (has_shape3_nth _ _ _ _ _ Ht Hi) as [_ Hrows].
  rewrite Forall_forall in Hrows. auto.
Qed.

(** Both outputs, frame by frame. *)
Lemma augment_frames :
  forall (point_clouds bounding_boxes : tensor 3) (t : Transformation)
         (f n d m e k p i : nat),
    has_shape3 f n d point_clouds = true ->
    has_shape3 f m e bounding_boxes = true ->
    has_shape4 f k p d (OBJECT_POINT_CLOUDS t) = true ->
    has_shape3 f k e (OBJECT_BOUNDING_BOXES t) = true ->
    (i < f)%nat ->
    let out :=
      augment_point_clouds_bounding_boxes CLASS within_box3d
        point_clouds bounding_boxes t in
    let points :=
      spec_paste_points t i
      ++ spec_existing_points within_box3d point_clouds t i in
    let boxes :=
      spec_paste_boxes CLASS t i
      ++ spec_existing_boxes CLASS bounding_boxes i in
    nth i (fst out) []
    = firstn n points ++ repeat (repeat 0 d) (n - length points)
    /\ nth i (snd out) []
       = firstn m boxes ++ repeat (repeat 0 e) (m - length boxes).
Proof.
  intros point_clouds bounding_boxes t f n d m e k p i
         Hpc Hbb Hopc Hobb Hi out points boxes.
  subst out. rewrite augment_as_map. cbv zeta. cbn [fst snd].
  rewrite (get_shape_of_shape _ _ _ _ Hpc) by lia.
  rewrite (get_shape_of_shape _ _ _ _ Hbb) by lia.
  pose proof (proj1 (has_shape3_spec _ _ _ _) Hpc) as [Hlen _].
  pose proof (proj1 (has_shape3_spec _ _ _ _) Hobb) as [Hlenb _].
  rewrite !to_tensor_nth by (rewrite ?length_map, ?length_seq; lia).
  rewrite Hlen. rewrite !nth_map_seq by exact Hi.
  rewrite augment_frame_points by lia.
  rewrite augment_frame_boxes.
  fold points. fold boxes. split; apply pad_rows.
  - unfold points. apply Forall_app. split.
    + apply (spec_paste_points_width t f k p d i Hopc Hi).
    + apply (filter_frame_width _ point_clouds f n d i Hpc Hi).
  - unfold boxes. apply Forall_app. split.
    + apply (filter_frame_width _ (OBJECT_BOUNDING_BOXES t) f k e i Hobb Hi).
    + apply (filter_frame_width _ bounding_boxes f m e i Hbb Hi).
Qed.

(** X6: an output frame holds nothing but labelled rows and padding: every
    row of the output point cloud is all zero or has a positive class
    feature, and so has every row of the output boxes. *)
Theorem output_rows_labelled_or_zero :
  forall (point_clouds bounding_boxes : tensor 3) (t : Transformation)
         (f n d m e k p i : nat),
    has_shape3 f n d point_clouds = true ->
    has_shape3 f m e bounding_boxes = true ->
    has_shape4 f k p d (OBJECT_POINT_CLOUDS t) = true ->
    has_shape3 f k e (OBJECT_BOUNDING_BOXES t) = true ->
    (i < f)%nat ->
    let out :=
      augment_point_clouds_bounding_boxes CLASS within_box3d
        point_clouds bounding_boxes t in
    Forall (fun row => row = repeat 0 d \/ greater (feature 3 row) 0 = true)
           (nth i (fst out) [])
    /\ Forall (fun row =>
                 row = repeat 0 e \/ greater (feature CLASS row) 0 = true)
              (nth i (snd out) []).
Proof.
  intros point_clouds bounding_boxes t f n d m e k p i
         Hpc Hbb Hopc Hobb Hi out.
  destruct (augment_frames point_clouds bounding_boxes t f n d m e k p i
              Hpc Hbb Hopc Hobb Hi) as [Hp Hb].
  subst out. rewrite Hp, Hb. split.
  - apply Forall_app. split.
    + apply firstn_Forall. apply Forall_app. split.
      * apply Forall_forall. intros row Hrow.
        apply filter_In in Hrow. tauto.
      * apply Forall_forall. intros row Hrow.
        apply filter_In in Hrow. destruct Hrow as [_ Hrow].
        apply andb_true_iff in Hrow. tauto.
    + apply Forall_forall. intros row Hrow.
      apply repeat_spec in Hrow. auto.
  - apply Forall_app. split.
    + apply firstn_Forall. apply Forall_app. split.
      * apply Forall_forall. intros row Hrow.
        apply filter_In in Hrow. tauto.
      * apply Forall_forall. intros row Hrow.
        apply filter_In in Hrow. tauto.
    + apply Forall_forall. intros row Hrow.
      apply repeat_spec in Hrow. auto.
Qed.

End AugmentedFrames.

(** ** When nothing is pasted *)

Lemma slice_axis1_zero :
  forall (A : Type) (t : list (list A)),
    length (slice_axis1 0 t) = length t
    /\ Forall (fun frame => frame = []) (slice_axis1 0 t).
Proof.
  intros A t. unfold slice_axis1. split; [apply length_map|].
  apply Forall_forall. intros frame Hin.
  apply in_map_iff in Hin. destruct Hin as [X [<- _]]. reflexivity.
Qed.

Lemma empty_frames_nth :
  forall (A : Type) (t : list (list A)) (i : nat),
    Forall (fun frame => frame = []) t -> nth i t [] = [].
Proof.
  intros A t i H. destruct (Nat.lt_ge_cases i (length t)) as [Hi|Hi].
  - rewrite Forall_forall in H. apply H. apply nth_In. exact Hi.
  - apply nth_overflow. exact Hi.
Qed.

Section NothingPasted.

Variable CLASS : nat.
Variable iou : tensor 1 -> tensor 1 -> Q.
Variable within_box3d : tensor 1 -> tensor 1 -> bool.

(** A draw below [1] is truncated to [0]: every frame of the transformation
    is empty. *)
Lemma nothing_drawn :
  forall (self : RandomCopyPaste) (draw : Draw) (bounding_boxes : tensor 3)
         (opc : tensor 4) (obb : tensor 3),
    0 <= uniform draw -> uniform draw < 1 ->
    let t :=
      get_random_transformation CLASS iou self draw bounding_boxes opc obb in
    length (OBJECT_POINT_CLOUDS t) = length opc
    /\ length (OBJECT_BOUNDING_BOXES t) = length obb
    /\ Forall (fun frame => frame = []) (OBJECT_POINT_CLOUDS t)
    /\ Forall (fun frame => frame = []) (OBJECT_BOUNDING_BOXES t).
Proof.
  intros self draw bounding_boxes opc obb Hlo Hhi t.
  assert (Hn : cast_int32 (uniform draw) = 0%Z).
  { pose proof (cast_int32_below 0 1 (uniform draw)) as H.
    assert (0 <= cast_int32 (uniform draw) < 1)%Z by (apply H; [lia | | ];
      assumption).
    lia. }
  subst t. unfold get_random_transformation. rewrite Hn.
  destruct (truthy (_label_index self));
    cbn [OBJECT_POINT_CLOUDS OBJECT_BOUNDING_BOXES];
    repeat split;
    try apply slice_axis1_zero;
    rewrite (proj1 (slice_axis1_zero _ _));
    unfold boolean_mask_axis1, slice_axis1, gather_axis1;
    rewrite !length_map; reflexivity.
Qed.

(** X7: with a draw in [[0, 1)], which is truncated to no pasted object,
    the layer is not the identity: in every frame it moves the labelled
    points and the labelled boxes to the front, in their order, and
    replaces every other row by a zero row at the end. *)
Theorem nothing_pasted_compacts :
  forall (self : RandomCopyPaste) (draw : Draw)
         (point_clouds bounding_boxes : tensor 3)
         (object_point_clouds : tensor 4) (object_bounding_boxes : tensor 3)
         (f n d m e k p i : nat),
    0 <= uniform draw -> uniform draw < 1 ->
    has_shape3 f n d point_clouds = true ->
    has_shape3 f m e bounding_boxes = true ->
    has_shape4 f k p d object_point_clouds = true ->
    has_shape3 f k e object_bounding_boxes = true ->
    (i < f)%nat ->
    let out :=
      _augment CLASS iou within_box3d self draw point_clouds bounding_boxes
        object_point_clouds object_bounding_boxes in
    let points :=
      filter (fun p => greater (feature 3 p) 0) (nth i point_clouds []) in
    let boxes :=
      filter (fun b => greater (feature CLASS b) 0)
             (nth i bounding_boxes []) in
    nth i (fst out) [] = points ++ repeat (repeat 0 d) (n - length points)
    /\ nth i (snd out) [] = boxes ++ repeat (repeat 0 e) (m - length boxes).
Proof.
  intros self draw pc bb opc obb f n d m e k p i
         Hlo Hhi Hpc Hbb Hopc Hobb Hi out points boxes.
  subst out. unfold _augment.
  destruct (nothing_drawn self draw bb opc obb Hlo Hhi)
    as [Hl1 [Hl2 [He1 He2]]].
  set (t := get_random_transformation CLASS iou self draw bb opc obb) in *.
  apply has_shape4_spec in Hopc. destruct Hopc as [Hlopc _].
  pose proof (proj1 (has_shape3_spec _ _ _ _ ) Hobb) as [Hlobb _].
  assert (Ht4 : has_shape4 f 0 p d (OBJECT_POINT_CLOUDS t) = true).
  { apply has_shape4_spec. split; [lia|].
    eapply Forall_impl; [|exact He1]. intros X ->. reflexivity. }
  assert (Ht3 : has_shape3 f 0 e (OBJECT_BOUNDING_BOXES t) = true).
  { apply has_shape3_spec. split; [lia|].
    eapply Forall_impl; [|exact He2]. intros X ->. split; [reflexivity|].
    constructor. }
  destruct (augment_frames CLASS within_box3d pc bb t f n d m e 0 p i
              Hpc Hbb Ht4 Ht3 Hi) as [Hp Hb].
  rewrite Hp, Hb.
  assert (Epoints :
            spec_paste_points t i
            ++ spec_existing_points within_box3d pc t i = points).
  { unfold spec_paste_points, spec_existing_points, outside_every_box.
    rewrite (empty_frames_nth _ _ i He1).
    rewrite (empty_frames_nth _ _ i He2). reflexivity. }
  assert (Eboxes :
            spec_paste_boxes CLASS t i ++ spec_existing_boxes CLASS bb i
            = boxes).
  { unfold spec_paste_boxes, spec_existing_boxes.
    rewrite (empty_frames_nth _ _ i He2). reflexivity. }
  rewrite Epoints, Eboxes.
  destruct (has_shape3_nth _ _ _ _ _ Hpc Hi) as [Hn _].
  destruct (has_shape3_nth _ _ _ _ _ Hbb Hi) as [Hm _].
  assert (Hlp : (length points <= n)%nat).
  { unfold points. rewrite <- Hn. apply filter_length_le. }
  assert (Hlb : (length boxes <= m)%nat).
  { unfold boxes. rewrite <- Hm. apply filter_length_le. }
  rewrite !firstn_all2 by assumption. split; reflexivity.
Qed.

End NothingPasted.

(** ** Shapes through the entry point *)

Section CallShapes.

Variable CLASS : nat.
Variable iou : tensor 1 -> tensor 1 -> Q.
Variable within_box3d : tensor 1 -> tensor 1 -> bool.

Lemma augment_shapes :
  forall (point_clouds bounding_boxes : tensor 3) (t : Transformation)
         (f n d m e : nat),
    has_shape3 f n d point_clouds = true ->
    has_shape3 f m e bounding_boxes = true ->
    (0 < f)%nat ->
    has_shape3 f n d
      (fst (augment_point_clouds_bounding_boxes CLASS within_box3d
              point_clouds bounding_boxes t)) = true
    /\ has_shape3 f m e
         (snd (augment_point_clouds_bounding_boxes CLASS within_box3d
                 point_clouds bounding_boxes t)) = true.
Proof.
  intros point_clouds bounding_boxes t f n d m e Hpc Hbb Hf.
  rewrite augment_as_map. cbv zeta. cbn [fst snd].
  rewrite (get_shape_of_shape _ _ _ _ Hpc) by exact Hf.
  rewrite (get_shape_of_shape _ _ _ _ Hbb) by exact Hf.
  assert (Hshape :
            forall (a c : nat) (rt : list (list (list Q))),
              has_shape3 f a c
                (to_tensor (f, a, if (a =? 0)%nat then 0%nat else c) rt)
              = true).
  { intros a c rt. destruct a as [|a].
    - apply (has_shape3_no_rows f 0 c). apply to_tensor_has_shape.
    - apply to_tensor_has_shape. }
  split; apply Hshape.
Qed.


End CallShapes.

(** ** The further properties on the sparse frame and on the batch *)

Lemma output_rows_labelled_or_zero_witness :
  has_shape3 1 3 5 Scenes.sparse_point_clouds = true
  /\ has_shape3 1 2 8 Scenes.sparse_boxes = true
  /\ has_shape4 1 1 2 5
       (OBJECT_POINT_CLOUDS Scenes.sparse_transformation) = true
  /\ has_shape3 1 1 8
       (OBJECT_BOUNDING_BOXES Scenes.sparse_transformation) = true
  /\ (let out :=
        augment_point_clouds_bounding_boxes
          AxisAligned.CLASS AxisAligned.within_box3d
          Scenes.sparse_point_clouds Scenes.sparse_boxes
          Scenes.sparse_transformation in
      Forall (fun row =>
                row = repeat 0 5 \/ greater (feature 3 row) 0 = true)
             (nth 0 (fst out) [])
      /\ Forall (fun row =>
                   row = repeat 0 8
                   \/ greater (feature AxisAligned.CLASS row) 0 = true)
                (nth 0 (snd out) [])).
Proof.
  assert (H1 : has_shape3 1 3 5 Scenes.sparse_point_clouds = true)
    by reflexivity.
  assert (H2 : has_shape3 1 2 8 Scenes.sparse_boxes = true) by reflexivity.
  assert (H3 : has_shape4 1 1 2 5
                 (OBJECT_POINT_CLOUDS Scenes.sparse_transformation) = true)
    by (vm_compute; reflexivity).
  assert (H4 : has_shape3 1 1 8
                 (OBJECT_BOUNDING_BOXES Scenes.sparse_transformation) = true)
    by (vm_compute; reflexivity).
  split; [exact H1|]. split; [exact H2|]. split; [exact H3|].
  split; [exact H4|].
  apply (output_rows_labelled_or_zero
           AxisAligned.CLASS AxisAligned.within_box3d
           Scenes.sparse_point_clouds Scenes.sparse_boxes
           Scenes.sparse_transformation 1 3 5 2 8 1 2 0 H1 H2 H3 H4).
  lia.
Defined.

(** With a draw of [1/2] the sparse frame loses its unlabelled point and
    keeps the point under the candidate box, since nothing is pasted. *)
Lemma nothing_pasted_compacts_witness :
  0 <= uniform (Scenes.draw (1 # 2))
  /\ uniform (Scenes.draw (1 # 2)) < 1
  /\ has_shape3 1 3 5 Scenes.sparse_point_clouds = true
  /\ has_shape3 1 2 8 Scenes.sparse_boxes = true
  /\ has_shape4 1 1 2 5 Scenes.pasted_points = true
  /\ has_shape3 1 1 8 Scenes.far_boxes = true
  /\ (let out :=
        _augment AxisAligned.CLASS AxisAligned.iou AxisAligned.within_box3d
          Scenes.layer (Scenes.draw (1 # 2))
          Scenes.sparse_point_clouds Scenes.sparse_boxes
          Scenes.pasted_points Scenes.far_boxes in
      nth 0 (fst out) []
      = [Scenes.point 0 1; Scenes.point 10 1; [0; 0; 0; 0; 0]]
      /\ nth 0 (snd out) []
         = [Scenes.box 0 1; [0; 0; 0; 0; 0; 0; 0; 0]]).
Proof.
  assert (H1 : 0 <= uniform (Scenes.draw (1 # 2)))
    by (unfold Qle; simpl; lia).
  assert (H2 : uniform (Scenes.draw (1 # 2)) < 1)
    by (unfold Qlt; simpl; lia).
  assert (H3 : has_shape3 1 3 5 Scenes.sparse_point_clouds = true)
    by reflexivity.
  assert (H4 : has_shape3 1 2 8 Scenes.sparse_boxes = true) by reflexivity.
  assert (H5 : has_shape4 1 1 2 5 Scenes.pasted_points = true)
    by reflexivity.
  assert (H6 : has_shape3 1 1 8 Scenes.far_boxes = true) by reflexivity.
  split; [exact H1|]. split; [exact H2|]. split; [exact H3|].
  split; [exact H4|]. split; [exact H5|]. split; [exact H6|].
  assert (Hi : (0 < 1)%nat) by lia.
  exact (nothing_pasted_compacts
           AxisAligned.CLASS AxisAligned.iou AxisAligned.within_box3d
           Scenes.layer (Scenes.draw (1 # 2))
           Scenes.sparse_point_clouds Scenes.sparse_boxes
           Scenes.pasted_points Scenes.far_boxes
           1 3 5 2 8 1 2 0 H1 H2 H3 H4 H5 H6 Hi).
Defined.


(** On the street scene the transformation is dense. *)
Lemma transformation_dense_witness :
  (forall l, Permutation (shuffle (Scenes.draw (9 # 2)) l) l)
  /\ has_shape4 1 4 1 5 Scenes.parked_points = true
  /\ has_shape3 1 4 8 Scenes.parked_boxes = true
  /\ (let t :=
        get_random_transformation AxisAligned.CLASS AxisAligned.iou
          Scenes.layer (Scenes.draw (9 # 2))
          Scenes.street_boxes Scenes.parked_points Scenes.parked_boxes in
      exists k' : nat,
        has_shape4 1 k' 1 5 (OBJECT_POINT_CLOUDS t) = true
        /\ has_shape3 1 k' 8 (OBJECT_BOUNDING_BOXES t) = true).
Proof.
  assert (H1 : forall l, Permutation (shuffle (Scenes.draw (9 # 2)) l) l)
    by (intros l; apply Permutation_refl).
  assert (H2 : has_shape4 1 4 1 5 Scenes.parked_points = true)
    by reflexivity.
  assert (H3 : has_shape3 1 4 8 Scenes.parked_boxes = true) by reflexivity.
  split; [exact H1|]. split; [exact H2|]. split; [exact H3|].
  apply (transformation_dense AxisAligned.CLASS AxisAligned.iou
           Scenes.layer (Scenes.draw (9 # 2))
           Scenes.street_boxes Scenes.parked_points Scenes.parked_boxes
           1 4 1 5 8 H1 H2 H3).
  lia.
Defined.

(** ** What the transformation reads *)

Section FirstFrameOnly.

Variable CLASS : nat.
Variable iou : tensor 1 -> tensor 1 -> Q.

(** X10: of [bounding_boxes] the transformation reads the first frame only.
    Two inputs with the same first frame of existing boxes get the same
    transformation from the same draw, whatever their later frames hold. *)
Theorem transformation_reads_first_frame :
  forall (self : RandomCopyPaste) (draw : Draw)
         (bounding_boxes bounding_boxes' : tensor 3)
         (object_point_clouds : tensor 4) (object_bounding_boxes : tensor 3),
    bounding_boxes <> [] ->
    bounding_boxes' <> [] ->
    hd [] bounding_boxes = hd [] bounding_boxes' ->
    get_random_transformation CLASS iou self draw bounding_boxes
      object_point_clouds object_bounding_boxes
    = get_random_transformation CLASS iou self draw bounding_boxes'
        object_point_clouds object_bounding_boxes.
Proof.
  intros self draw bb bb' opc obb Hne Hne' Hhd.
  destruct bb as [|x bb]; [contradiction|].
  destruct bb' as [|x' bb']; [contradiction|].
  simpl in Hhd. subst x'.
  unfold get_random_transformation.
  destruct (truthy (_label_index self)); cbv zeta;
    rewrite !hd_map2_app; reflexivity.
Qed.

End FirstFrameOnly.

(** The second frame of the existing boxes is moved under the candidate of
    the moving scene; the transformation does not change. *)
Lemma transformation_reads_first_frame_witness :
  Scenes.two_frame_boxes <> []
  /\ [[Scenes.box 0 1]; [Scenes.box 10 1]] <> []
  /\ hd [] Scenes.two_frame_boxes
     = hd [] [[Scenes.box 0 1]; [Scenes.box 10 1]]
  /\ get_random_transformation AxisAligned.CLASS AxisAligned.iou
       Scenes.layer (Scenes.draw 1) Scenes.two_frame_boxes
       Scenes.moving_points Scenes.moving_boxes
     = get_random_transformation AxisAligned.CLASS AxisAligned.iou
         Scenes.layer (Scenes.draw 1) [[Scenes.box 0 1]; [Scenes.box 10 1]]
         Scenes.moving_points Scenes.moving_boxes.
Proof.
  assert (H1 : Scenes.two_frame_boxes <> []) by discriminate.
  assert (H2 : [[Scenes.box 0 1]; [Scenes.box 10 1]] <> [])
    by discriminate.
  assert (H3 : hd [] Scenes.two_frame_boxes
               = hd [] [[Scenes.box 0 1]; [Scenes.box 10 1]])
    by reflexivity.
  split; [exact H1|]. split; [exact H2|]. split; [exact H3|].
  exact (transformation_reads_first_frame AxisAligned.CLASS AxisAligned.iou
           Scenes.layer (Scenes.draw 1) Scenes.two_frame_boxes
           [[Scenes.box 0 1]; [Scenes.box 10 1]]
           Scenes.moving_points Scenes.moving_boxes H1 H2 H3).
Defined.

(** ** The window of compared candidates *)

Lemma firstn_incl_le :
  forall (A : Type) (a b : nat) (l : list A),
    (a <= b)%nat -> incl (firstn a l) (firstn b l).
Proof.
  intros A a b l Hab x Hx.
  replace a with (Nat.min a b) in Hx by lia.
  rewrite <- firstn_firstn in Hx. apply In_firstn in Hx. exact Hx.
Qed.

Lemma dim1_of_shape4 :
  forall (f k p d : nat) (t : tensor 4),
    has_shape4 f k p d t = true -> (0 < f)%nat -> dim1 t = k.
Proof.
  intros f k p d t H Hf. apply has_shape4_spec in H.
  destruct H as [Hlen Hall].
  destruct t as [|X t]; [simpl in Hlen; lia|].
  pose proof (Forall_inv Hall) as HX. cbv beta in HX.
  apply has_shape3_spec in HX. unfold dim1. simpl. tauto.
Qed.

Section Window.

Variable CLASS : nat.
Variable iou : tensor 1 -> tensor 1 -> Q.

(** X11: the overlap test loads at most five times as many candidates as
    the draw asks for.  For a layer without [label_index], every pasted
    object is one of the first [5 * num_paste_bounding_boxes] candidates of
    the shuffled order; a candidate further down is never pasted, even when
    all the loaded ones are rejected. *)
Theorem pasted_objects_come_from_window :
  forall (label_index : option Z) (lo hi : Z) (self : RandomCopyPaste)
         (draw : Draw) (bounding_boxes : tensor 3)
         (object_point_clouds : tensor 4) (object_bounding_boxes : tensor 3)
         (f k p d e : nat),
    __init__ label_index lo hi = Ok self ->
    truthy label_index = false ->
    inject_Z lo <= uniform draw ->
    uniform draw <= inject_Z hi ->
    (hi * 5 < 2 ^ 31)%Z ->
    has_shape4 f k p d object_point_clouds = true ->
    has_shape3 f k e object_bounding_boxes = true ->
    (0 < f)%nat ->
    let t :=
      get_random_transformation CLASS iou self draw bounding_boxes
        object_point_clouds object_bounding_boxes in
    exists idx : list nat,
      incl idx
           (firstn (Z.to_nat (cast_int32 (uniform draw) * 5))
                   (shuffle draw (seq 0 k)))
      /\ OBJECT_POINT_CLOUDS t = gather_axis1 [] object_point_clouds idx
      /\ OBJECT_BOUNDING_BOXES t = gather_axis1 [] object_bounding_boxes idx.
Proof.
  intros label_index lo hi self draw bb opc obb f k p d e
         Hinit Hlabel Hlo Hhi Hsmall Hopc Hobb Hf t.
  destruct (init_Ok_inv _ _ _ _ Hinit) as [Hl [_ [_ Hrange]]].
  pose proof (cast_int32_bounds lo hi (uniform draw)
                (proj1 Hrange) Hlo Hhi) as Hn.
  subst t. unfold get_random_transformation.
  rewrite Hl, Hlabel. cbv zeta.
  cbn [OBJECT_POINT_CLOUDS OBJECT_BOUNDING_BOXES].
  rewrite (dim1_of_shape4 f k p d opc Hopc Hf).
  rewrite wrap32_small by lia.
  match goal with
  | |- context [boolean_mask_axis1 _ ?m] => generalize m
  end.
  intros mask.
  match goal with
  | |- context [slice_axis1 (Z.min ?a ?b) _] => set (kk := Z.min a b)
  end.
  set (n := cast_int32 (uniform draw)) in *.
  set (perm := shuffle draw (seq 0 k)).
  exists (slice_to n (boolean_mask (slice_to kk perm) mask)).
  split; [|split].
  - intros x Hx. apply slice_to_In, boolean_mask_In in Hx.
    assert (Hkk : (0 <= kk <= n * 5)%Z) by (subst kk; lia).
    unfold slice_to in Hx. destruct (Z.ltb_spec kk 0); [lia|].
    apply (firstn_incl_le _ (Z.to_nat kk)); [lia | exact Hx].
  - unfold slice_axis1, boolean_mask_axis1, gather_axis1.
    rewrite !map_map. apply map_ext. intros X. unfold gather.
    rewrite slice_to_map, boolean_mask_map_comm, slice_to_map.
    reflexivity.
  - unfold slice_axis1, boolean_mask_axis1, gather_axis1.
    rewrite !map_map. apply map_ext. intros X. unfold gather.
    rewrite slice_to_map, boolean_mask_map_comm, slice_to_map.
    reflexivity.
Qed.

End Window.

(** On the crowded kerb a draw of [1] loads the first five candidates; all
    of them are rejected and the sixth, which stands clear, is not pasted. *)
Example crowded_kerb_pastes_nothing :
  get_random_transformation AxisAligned.CLASS AxisAligned.iou
    Scenes.layer (Scenes.draw 1)
    CrowdedKerb.existing_boxes CrowdedKerb.candidate_points
    CrowdedKerb.candidate_boxes
  = {| OBJECT_POINT_CLOUDS := [[]]; OBJECT_BOUNDING_BOXES := [[]] |}.
Proof. vm_compute. reflexivity. Qed.

Lemma pasted_objects_come_from_window_witness :
  __init__ None 0 10 = Ok Scenes.layer
  /\ inject_Z 0 <= uniform (Scenes.draw 1)
  /\ uniform (Scenes.draw 1) <= inject_Z 10
  /\ has_shape4 1 6 1 5 CrowdedKerb.candidate_points = true
  /\ has_shape3 1 6 8 CrowdedKerb.candidate_boxes = true
  /\ (let t :=
        get_random_transformation AxisAligned.CLASS AxisAligned.iou
          Scenes.layer (Scenes.draw 1)
          CrowdedKerb.existing_boxes CrowdedKerb.candidate_points
          CrowdedKerb.candidate_boxes in
      exists idx : list nat,
        incl idx [0; 1; 2; 3; 4]%nat
        /\ OBJECT_POINT_CLOUDS t
           = gather_axis1 [] CrowdedKerb.candidate_points idx
        /\ OBJECT_BOUNDING_BOXES t
           = gather_axis1 [] CrowdedKerb.candidate_boxes idx).
Proof.
  assert (H1 : __init__ None 0 10 = Ok Scenes.layer) by reflexivity.
  assert (H2 : inject_Z 0 <= uniform (Scenes.draw 1))
    by (unfold Qle; simpl; lia).
  assert (H3 : uniform (Scenes.draw 1) <= inject_Z 10)
    by (unfold Qle; simpl; lia).
  assert (H4 : has_shape4 1 6 1 5 CrowdedKerb.candidate_points = true)
    by reflexivity.
  assert (H5 : has_shape3 1 6 8 CrowdedKerb.candidate_boxes = true)
    by reflexivity.
  split; [exact H1|]. split; [exact H2|]. split; [exact H3|].
  split; [exact H4|]. split; [exact H5|].
  apply (pasted_objects_come_from_window
           AxisAligned.CLASS AxisAligned.iou
           None 0 10 Scenes.layer (Scenes.draw 1)
           CrowdedKerb.existing_boxes CrowdedKerb.candidate_points
           CrowdedKerb.candidate_boxes 1 6 1 5 8 H1 eq_refl H2 H3);
    [lia | exact H4 | exact H5 | lia].
Defined.
